(** * A shallow embedding of [jira_api_fetcher]

    The development follows [src/jira_api_fetcher/etc.py] and
    [src/jira_api_fetcher/module.py].  Python values are an inductive type,
    exceptions are an explicit outcome, and the calls to [requests.get] are
    threaded through a small monad that records every request issued and asks
    a deterministic server for the response. *)

From Stdlib Require Import ZArith Lia Ascii String.
From stdpp Require Import base tactics option list gmap strings fin_maps pretty.

Local Open Scope string_scope.
Local Open Scope list_scope.
Local Open Scope nat_scope.
Set Warnings "-register-all".

(** ** Python values *)

(** The value of a Python [float]: the number [m * 2^e], an infinity or a
    nan.  Every binary64 number is of this kind. *)
Inductive pyfloat : Type :=
| Finite (m e : Z)
| Infinity (negative : bool)
| NaN.

(** The values that [json.loads] and [response.json()] produce, and that the
    fetcher puts into its query parameters.  [VDict] holds the items of a
    [dict] in insertion order; a key is looked up at its first binding. *)
Inductive value : Type :=
| VNone
| VBool (b : bool)
| VInt (n : Z)
| VFloat (x : pyfloat)
| VStr (s : string)
| VList (items : list value)
| VDict (entries : list (string * value)).

(** ** Exceptions *)

Inductive exn : Type :=
| ValueError (msg : string)
| JSONDecodeError (msg doc : string) (pos : Z)  (* json.JSONDecodeError *)
| JiraApiError (message : string) (status_code : Z)
| KeyError (key : string)
| TypeError
| ResponseDecodeError.  (* raised by response.json() on an undecodable body *)



(** The result of running a piece of the program: a value, an exception, or
    the loop budget of the model exhausted. *)
Inductive outcome (A : Type) : Type :=
| Return (a : A)
| Raise (e : exn)
| OutOfFuel.
Arguments Return {A} a.
Arguments Raise {A} e.
Arguments OutOfFuel {A}.

(** ** The Python operations the fetcher applies to decoded bodies *)

Fixpoint dict_get (k : string) (entries : list (string * value)) : option value :=
  match entries with
  | [] => None
  | (k', v) :: rest => if String.eqb k' k then Some v else dict_get k rest
  end.

(** [v[k]] for a string key [k]. *)
Definition getitem (v : value) (k : string) : outcome value :=
  match v with
  | VDict entries =>
      match dict_get k entries with
      | Some x => Return x
      | None => Raise (KeyError k)
      end
  | _ => Raise TypeError
  end.

(** [bool(v)]. *)
Definition truthy (v : value) : bool :=
  match v with
  | VNone => false
  | VBool b => b
  | VInt n => negb (n =? 0)%Z
  | VFloat (Finite m _) => negb (m =? 0)%Z
  | VFloat _ => true
  | VStr s => negb (String.eqb s "")
  | VList items => match items with [] => false | _ => true end
  | VDict entries => match entries with [] => false | _ => true end
  end.

Fixpoint chars (s : string) : list string :=
  match s with
  | EmptyString => []
  | String c s' => String c EmptyString :: chars s'
  end.

(** The elements [list.extend] takes from its argument, which are also the
    ones [len] counts for these types. *)
Definition iterate (v : value) : outcome (list value) :=
  match v with
  | VList items => Return items
  | VStr s => Return (VStr <$> chars s)
  | VDict entries => Return ((λ kv, VStr kv.1) <$> entries)
  | _ => Raise TypeError
  end.

Definition len (items : list value) : Z := Z.of_nat (length items).

(** [n < x] for an integer [n] and a float [x]: Python compares the two
    numbers exactly, and nothing is below a nan. *)
Definition int_lt_float (n : Z) (x : pyfloat) : bool :=
  match x with
  | Finite m e =>
      if (0 <=? e)%Z then (n <? m * 2 ^ e)%Z else (n * 2 ^ (- e) <? m)%Z
  | Infinity negative => negb negative
  | NaN => false
  end.

(** [n < v] for an integer [n]; [bool] is a subtype of [int] in Python. *)
Definition int_lt (n : Z) (v : value) : outcome bool :=
  match v with
  | VInt m => Return (n <? m)%Z
  | VBool b => Return (n <? (if b then 1 else 0))%Z
  | VFloat x => Return (int_lt_float n x)
  | _ => Raise TypeError
  end.

(** [s.split(sep)] for a one-character separator. *)
Fixpoint split_on (sep : ascii) (s : string) : list string :=
  match s with
  | EmptyString => [EmptyString]
  | String c s' =>
      if Ascii.eqb c sep then EmptyString :: split_on sep s'
      else match split_on sep s' with
           | w :: ws => String c w :: ws
           | [] => [String c EmptyString]
           end
  end.

(** ** Requests and responses *)

Record JiraConnection : Type := {
  base_url : string;
  username : string;
  token : string
}.

(** The arguments of one call to [requests.get]. *)
Record request : Type := {
  url : string;
  headers : gmap string string;
  auth : string * string;
  params : gmap string value
}.

(** What the fetcher reads from a response; [json] is [None] when
    [response.json()] raises. *)
Record response : Type := {
  status_code : Z;
  text : string;
  json : option value
}.

Definition DEFAULT_HEADERS : gmap string string :=
  {[ "Content-Type" := "application/json" ]}.

(** A deterministic server: the response to a request, given the requests it
    has already answered (oldest first). *)
Definition server : Type := list request → request → response.

(** ** The monad of the fetcher: exceptions and the log of requests sent *)

Definition M (A : Type) : Type := list request → outcome A * list request.

Definition ret {A} (a : A) : M A := λ sent, (Return a, sent).
Definition raise {A} (e : exn) : M A := λ sent, (Raise e, sent).
Definition out_of_fuel {A} : M A := λ sent, (OutOfFuel, sent).
Definition lift {A} (o : outcome A) : M A := λ sent, (o, sent).

Definition bind {A B} (m : M A) (k : A → M B) : M B := λ sent,
  match m sent with
  | (Return a, sent') => k a sent'
  | (Raise e, sent') => (Raise e, sent')
  | (OutOfFuel, sent') => (OutOfFuel, sent')
  end.

Notation "x <- m ;; k" := (bind m (λ x, k))
  (at level 100, m at next level, right associativity).

(** The result of [urllib.parse.urljoin] on two strings: the joined URL, or
    the message of the [ValueError] it raises when one of them does not parse
    (an authority with a bracket that is not closed, for one). *)
Inductive joined : Type :=
| Joined (url : string)
| Invalid (msg : string).

(** Running an operation from an empty log. *)
Definition run {A} (m : M A) : outcome A * list request := m [].

(** The call [requests.get(url, headers=DEFAULT_HEADERS, auth=(username,
    token), params=params)] of [_get_response]. *)
Definition get_request (connection : JiraConnection) (url : string)
    (params : gmap string value) : request :=
  {| url := url;
     headers := DEFAULT_HEADERS;
     auth := (username connection, token connection);
     params := params |}.

(** ** The fetcher of [module.py] *)

Section JiraApiFetcher.

(** [urllib.parse.urljoin] and [json.loads] belong to Python's library and
    [requests.get] to the network: the fetcher is verified for every
    choice of them. *)
Variable urljoin : string → string → joined.
Variable json_loads : string → exn + value.
Variable requests_get : server.

(** [self.connection] *)
Variable connection : JiraConnection.

Definition _get_url (endpoint : option string) : M string :=
  match endpoint with
  | None => raise (ValueError "endpoint must not be empty")
  | Some e =>
      if String.eqb e "" then raise (ValueError "endpoint must not be empty")
      else match urljoin (base_url connection) e with
           | Joined url => ret url
           | Invalid msg => raise (ValueError msg)
           end
  end.

Definition _get_params (fetch_size : Z) (fields : option (list string))
    (jql : option string) (start_at : Z) : gmap string value :=
  let params : gmap string value :=
    <["maxResults" := VInt fetch_size]> {[ "startAt" := VInt start_at ]} in
  let params :=
    match jql with
    | Some q => <["jql" := VStr q]> params
    | None => params
    end in
  match fields with
  | Some fs => <["fields" := VList (VStr <$> fs)]> params
  | None => params
  end.

Definition _get_response (url : string) (params : option (gmap string value))
    : M response := λ sent,
  let params := default ∅ params in
  let req := get_request connection url params in
  (Return (requests_get sent req), sent ++ [req]).

(** [response.json()] *)
Definition response_json (r : response) : outcome value :=
  match json r with
  | Some v => Return v
  | None => Raise ResponseDecodeError
  end.

Definition fetch_array (endpoint : option string) : M value :=
  url <- _get_url endpoint ;;
  response <- _get_response url None ;;
  if negb (status_code response =? 200)%Z then
    raise (JiraApiError ("Failed to fetch data as array: " +:+ text response)
                        (status_code response))
  else lift (response_json response).

(** [{**params, **add_params}]: the right operand wins on a shared key. *)
Definition merge_params (params : gmap string value) (add_params : value)
    : outcome (gmap string value) :=
  match add_params with
  | VDict entries => Return (list_to_map entries ∪ params)
  | _ => Raise TypeError
  end.

(** The [if params_json is not None] block of [fetch_paginated]: a decoding
    error is raised again as it is. *)
Definition extend_params (params_json : option string)
    (params : gmap string value) : outcome (gmap string value) :=
  match params_json with
  | Some txt =>
      match json_loads txt with
      | inr add_params => merge_params params add_params
      | inl e => Raise e
      end
  | None => Return params
  end.

(** The [while has_next] loop of [fetch_paginated]; one unit of [fuel] per
    iteration of the body. *)
Fixpoint fetch_paginated_loop (fuel : nat) (url : string) (fetch_size : Z)
    (params_json : option string) (has_next : bool) (start_at : Z)
    (data : list value) {struct fuel} : M (list value) :=
  if has_next then
    match fuel with
    | O => out_of_fuel
    | S fuel' =>
        let params : gmap string value :=
          <["maxResults" := VInt fetch_size]> {[ "startAt" := VInt start_at ]} in
        params <- lift (extend_params params_json params) ;;
        response <- _get_response url (Some params) ;;
        if negb (status_code response =? 200)%Z then
          raise (JiraApiError
                   ("Failed to fetch paginated values: " +:+ text response)
                   (status_code response))
        else
          page_data <- lift (response_json response) ;;
          is_last <- lift (getitem page_data "isLast") ;;
          let has_next := negb (truthy is_last) in
          page_data_values <- lift (getitem page_data "values") ;;
          items <- lift (iterate page_data_values) ;;
          let data := data ++ items in
          let start_at := (start_at + len items)%Z in
          fetch_paginated_loop fuel' url fetch_size params_json has_next
                               start_at data
    end
  else ret data.

Definition fetch_paginated (fuel : nat) (endpoint : option string)
    (fetch_size : Z) (params_json : option string) : M (list value) :=
  url <- _get_url endpoint ;;
  if (fetch_size <? 1)%Z then raise (ValueError "fetch_size must be >= 1")
  else fetch_paginated_loop fuel url fetch_size params_json true 0 [].

(** The [while start_at < total_items] loop of [fetch_issues]. *)
Fixpoint fetch_issues_loop (fuel : nat) (url : string) (fetch_size : Z)
    (fields : option (list string)) (jql : option string) (start_at : Z)
    (total_items : value) (fetched_issues : list value) {struct fuel}
    : M (list value) :=
  continue <- lift (int_lt start_at total_items) ;;
  if continue : bool then
    match fuel with
    | O => out_of_fuel
    | S fuel' =>
        let params := _get_params fetch_size fields jql start_at in
        response <- _get_response url (Some params) ;;
        if negb (status_code response =? 200)%Z then
          raise (JiraApiError ("Failed to fetch issues: " +:+ text response)
                              (status_code response))
        else
          data <- lift (response_json response) ;;
          total_items <- lift (getitem data "total") ;;
          issues <- lift (getitem data "issues") ;;
          items <- lift (iterate issues) ;;
          let fetched_issues := fetched_issues ++ items in
          let start_at := (start_at + len items)%Z in
          fetch_issues_loop fuel' url fetch_size fields jql start_at
                            total_items fetched_issues
    end
  else ret fetched_issues.

Definition fetch_issues (fuel : nat) (endpoint : option string)
    (fetch_size : Z) (fields_str : option string) (jql : option string)
    : M (list value) :=
  url <- _get_url endpoint ;;
  if (fetch_size <? 1)%Z then raise (ValueError "fetch_size must be >= 1")
  else
    let fields :=
      match fields_str with
      | Some s => if String.eqb s "" then None else Some (split_on "," s)
      | None => None
      end in
    fetch_issues_loop fuel url fetch_size fields jql 0 (VInt fetch_size) [].

End JiraApiFetcher.

(** ** Vocabulary of the specification *)





(** Sequencing of outcomes, for the parts of a loop body that send nothing. *)
Definition and_then {A B} (o : outcome A) (k : A → outcome B) : outcome B :=
  match o with
  | Return a => k a
  | Raise e => Raise e
  | OutOfFuel => OutOfFuel
  end.

(** What an iteration of the [fetch_paginated] loop takes from a 200
    response: the next [has_next] and the elements to append. *)
Definition read_page (r : response) : outcome (bool * list value) :=
  and_then (response_json r) (λ page_data,
  and_then (getitem page_data "isLast") (λ is_last,
  and_then (getitem page_data "values") (λ page_data_values,
  and_then (iterate page_data_values) (λ items,
  Return (negb (truthy is_last), items))))).

(** What an iteration of the [fetch_issues] loop takes from a 200 response:
    the next [total_items] and the elements to append. *)
Definition read_issues (r : response) : outcome (value * list value) :=
  and_then (response_json r) (λ data,
  and_then (getitem data "total") (λ total_items,
  and_then (getitem data "issues") (λ issues,
  and_then (iterate issues) (λ items,
  Return (total_items, items))))).

(** The extra parameters that [params_json] decodes to ([[]] when absent). *)
Definition extra_params (json_loads : string → exn + value)
    (params_json : option string) (extra : list (string * value)) : Prop :=
  match params_json with
  | None => extra = []
  | Some txt => json_loads txt = inr (VDict extra)
  end.

(** The parameter map of a [fetch_paginated] request at offset [start_at]. *)
Definition paginated_params (fetch_size : Z) (extra : list (string * value))
    (start_at : Z) : gmap string value :=
  list_to_map extra ∪
    <["maxResults" := VInt fetch_size]> {[ "startAt" := VInt start_at ]}.


(** The elements a response body contributes to [fetch_issues], when it is
    well formed. *)
Definition issues_of (r : response) : list value :=
  match json r with
  | Some data =>
      match getitem data "issues" with
      | Return v => match iterate v with Return items => items | _ => [] end
      | _ => []
      end
  | None => []
  end.

(** The offset in force when each request of a log was sent: the number of
    issues in the responses to the requests before it. *)
Fixpoint issue_offsets (srv : server) (sent : list request) (start_at : Z)
    (new : list request) : list Z :=
  match new with
  | [] => []
  | req :: rest =>
      start_at :: issue_offsets srv (sent ++ [req])
                    (start_at + len (issues_of (srv sent req))) rest
  end.

(** The [fields] list that [fetch_issues] passes to [_get_params]. *)
Definition fields_of (fields_str : option string) : option (list string) :=
  match fields_str with
  | Some s => if String.eqb s "" then None else Some (split_on "," s)
  | None => None
  end.

(** ** Concrete surroundings for the examples *)

(** A decoder for the fragment of JSON without escapes, fractions and
    exponents.  It stands for [json.loads] in the examples; the fetcher itself
    is verified for any decoder. *)
Module RefDecoder.

Definition quote : ascii := "034"%char.

Definition is_ws (c : ascii) : bool :=
  Ascii.eqb c " " || Ascii.eqb c "009" || Ascii.eqb c "010" || Ascii.eqb c "013".

Fixpoint skip_ws (s : string) : string :=
  match s with
  | String c s' => if is_ws c then skip_ws s' else s
  | EmptyString => s
  end.

Definition digit (c : ascii) : option Z :=
  let n := nat_of_ascii c in
  if (48 <=? n)%nat && (n <=? 57)%nat then Some (Z.of_nat (n - 48)) else None.

Fixpoint digits (acc : Z) (s : string) : Z * string :=
  match s with
  | String c s' =>
      match digit c with
      | Some d => digits (10 * acc + d) s'
      | None => (acc, s)
      end
  | EmptyString => (acc, s)
  end.

(** An integer literal without sign: [0], or a non-zero digit and more. *)
Definition natural (s : string) : option (Z * string) :=
  match s with
  | String c s' =>
      match digit c with
      | Some 0%Z => Some (0%Z, s')
      | Some d => Some (digits d s')
      | None => None
      end
  | EmptyString => None
  end.

(** The characters up to the closing quote. *)
Fixpoint chars_to_quote (s : string) : option (string * string) :=
  match s with
  | EmptyString => None
  | String c s' =>
      if Ascii.eqb c quote then Some (EmptyString, s')
      else if Ascii.eqb c "092" then None
      else match chars_to_quote s' with
           | Some (w, rest) => Some (String c w, rest)
           | None => None
           end
  end.

(** A later binding of a key replaces an earlier one, as in a [dict]. *)
Fixpoint last_wins (entries : list (string * value)) : list (string * value) :=
  match entries with
  | [] => []
  | (k, v) :: rest =>
      match dict_get k rest with
      | Some _ => last_wins rest
      | None => (k, v) :: last_wins rest
      end
  end.

(** A failure: the message and the input left where it was found. *)
Definition failure : Type := string * string.

Fixpoint decode_value (fuel : nat) (s : string) {struct fuel}
    : failure + value * string :=
  match fuel with
  | O => inl ("Expecting value", s)
  | S fuel' =>
      match s with
      | String "n" (String "u" (String "l" (String "l" rest))) =>
          inr (VNone, rest)
      | String "t" (String "r" (String "u" (String "e" rest))) =>
          inr (VBool true, rest)
      | String "f" (String "a" (String "l" (String "s" (String "e" rest)))) =>
          inr (VBool false, rest)
      | String "[" rest =>
          match skip_ws rest with
          | String "]" rest' => inr (VList [], rest')
          | rest' =>
              match decode_elements fuel' rest' with
              | inr (items, rest'') => inr (VList items, rest'')
              | inl f => inl f
              end
          end
      | String "{" rest =>
          match skip_ws rest with
          | String "}" rest' => inr (VDict [], rest')
          | rest' =>
              match decode_members fuel' rest' with
              | inr (entries, rest'') => inr (VDict (last_wins entries), rest'')
              | inl f => inl f
              end
          end
      | String "-" rest =>
          match natural rest with
          | Some (n, rest') => inr (VInt (- n), rest')
          | None => inl ("Expecting value", s)
          end
      | String c rest =>
          if Ascii.eqb c quote then
            match chars_to_quote rest with
            | Some (w, rest') => inr (VStr w, rest')
            | None => inl ("Unterminated string starting at", s)
            end
          else
            match natural s with
            | Some (n, rest') => inr (VInt n, rest')
            | None => inl ("Expecting value", s)
            end
      | EmptyString => inl ("Expecting value", s)
      end
  end
with decode_elements (fuel : nat) (s : string) {struct fuel}
    : failure + list value * string :=
  match fuel with
  | O => inl ("Expecting value", s)
  | S fuel' =>
      match decode_value fuel' s with
      | inl f => inl f
      | inr (v, rest) =>
          match skip_ws rest with
          | String "]" rest' => inr ([v], rest')
          | String "," rest' =>
              match decode_elements fuel' (skip_ws rest') with
              | inr (vs, rest'') => inr (v :: vs, rest'')
              | inl f => inl f
              end
          | rest' => inl ("Expecting ',' delimiter", rest')
          end
      end
  end
with decode_members (fuel : nat) (s : string) {struct fuel}
    : failure + list (string * value) * string :=
  match fuel with
  | O => inl ("Expecting value", s)
  | S fuel' =>
      match s with
      | String c rest =>
          if Ascii.eqb c quote then
            match chars_to_quote rest with
            | None => inl ("Unterminated string starting at", s)
            | Some (k, rest1) =>
                match skip_ws rest1 with
                | String ":" rest2 =>
                    match decode_value fuel' (skip_ws rest2) with
                    | inl f => inl f
                    | inr (v, rest3) =>
                        match skip_ws rest3 with
                        | String "}" rest4 => inr ([(k, v)], rest4)
                        | String "," rest4 =>
                            match decode_members fuel' (skip_ws rest4) with
                            | inr (kvs, rest5) => inr ((k, v) :: kvs, rest5)
                            | inl f => inl f
                            end
                        | rest4 => inl ("Expecting ',' delimiter", rest4)
                        end
                    end
                | rest2 => inl ("Expecting ':' delimiter", rest2)
                end
            end
          else inl ("Expecting property name enclosed in double quotes", s)
      | EmptyString =>
          inl ("Expecting property name enclosed in double quotes", s)
      end
  end.

Definition loads (doc : string) : exn + value :=
  let error (f : failure) :=
    JSONDecodeError f.1 doc
      (Z.of_nat (String.length doc) - Z.of_nat (String.length f.2)) in
  match decode_value (S (String.length doc)) (skip_ws doc) with
  | inl f => inl (error f)
  | inr (v, rest) =>
      match skip_ws rest with
      | EmptyString => inr v
      | rest' => inl (error ("Extra data", rest'))
      end
  end.

End RefDecoder.

(** [urljoin] where the examples need it: a base of the form
    [scheme://host] and an endpoint that is an absolute path, where it
    appends the one to the other, or a reference [//authority...], where it
    keeps the scheme of the base, and raises when a bracket of the authority
    has no partner.  The fetcher itself is verified for any [urljoin]. *)
Module RefUrl.

Fixpoint has (c : ascii) (s : string) : bool :=
  match s with
  | EmptyString => false
  | String c' s' => Ascii.eqb c' c || has c s'
  end.

(** The part of [s] before the first of [/], [?] and [#]. *)
Fixpoint authority (s : string) : string :=
  match s with
  | EmptyString => EmptyString
  | String c s' =>
      if Ascii.eqb c "/" || Ascii.eqb c "?" || Ascii.eqb c "#" then EmptyString
      else String c (authority s')
  end.

(** The part of [s] before the first colon. *)
Fixpoint scheme (s : string) : string :=
  match s with
  | EmptyString => EmptyString
  | String c s' => if Ascii.eqb c ":" then EmptyString else String c (scheme s')
  end.

Definition urljoin (base endpoint : string) : joined :=
  match endpoint with
  | String "/" (String "/" rest) =>
      let netloc := authority rest in
      if xorb (has "[" netloc) (has "]" netloc) then Invalid "Invalid IPv6 URL"
      else Joined (scheme base +:+ ":" +:+ endpoint)
  | _ => Joined (base +:+ endpoint)
  end.

End RefUrl.

(** A server that plays a script of responses, then repeats [dflt]. *)
Definition scripted (script : list response) (dflt : response) : server :=
  λ sent _, default dflt (script !! length sent).

(** A server that gives the same response to every request. *)
Definition always (r : response) : server := λ _ _, r.

Definition ok (body : value) : response :=
  {| status_code := 200; text := ""; json := Some body |}.

Definition failed (status : Z) (body : string) : response :=
  {| status_code := status; text := body; json := None |}.

Definition CONNECTION : JiraConnection :=
  {| base_url := "https://your-jira-instance.com";
     username := "your-username";
     token := "your-token" |}.

Definition ENDPOINT : string := "/some/endpoint".

Definition obj_id (n : Z) : value := VDict [("id", VInt n)].

Definition page (is_last : bool) (vs : list value) : value :=
  VDict [("isLast", VBool is_last); ("values", VList vs)].

Definition issues_page (total : Z) (issues : list value) : value :=
  VDict [("total", VInt total); ("issues", VList issues)].


(** A JSON string literal: [s] between double quotes. *)
Definition quoted (s : string) : string :=
  String RefDecoder.quote (s +:+ String RefDecoder.quote "").

(** ** Vocabulary for whole runs *)

(** The responses given to the requests [new], sent in this order after the
    requests [sent]. *)
Fixpoint answers (srv : server) (sent new : list request) : list response :=
  match new with
  | [] => []
  | req :: rest => srv sent req :: answers srv (sent ++ [req]) rest
  end.

(** The elements a response body contributes to [fetch_paginated], when it is
    well formed. *)
Definition values_of (r : response) : list value :=
  match read_page r with
  | Return (_, items) => items
  | _ => []
  end.

(** The offset in force when each request of a [fetch_paginated] log was
    sent: the number of values in the responses to the requests before it. *)
Fixpoint page_offsets (srv : server) (sent : list request) (start_at : Z)
    (new : list request) : list Z :=
  match new with
  | [] => []
  | req :: rest =>
      start_at :: page_offsets srv (sent ++ [req])
                    (start_at + len (values_of (srv sent req))) rest
  end.

(** What the loops of the two paginated operations need from a response to
    go on: status 200 and a body they can read. *)
Definition read_as_page (r : response) (p : bool * list value) : Prop :=
  status_code r = 200%Z ∧ read_page r = Return p.

Definition read_as_issues (r : response) (p : value * list value) : Prop :=
  status_code r = 200%Z ∧ read_issues r = Return p.

(** The character [c] occurs in [s]. *)
Definition occurs (c : ascii) (s : string) : Prop :=
  In c (list_ascii_of_string s).

(** ** Tactics for the request log *)



(** * Verification *)

(** ** One iteration of each loop *)

Section Steps.

Variable urljoin : string → string → joined.
Variable json_loads : string → exn + value.
Variable srv : server.
Variable conn : JiraConnection.

Lemma get_url_nonempty (e url : string) (sent : list request) :
  e ≠ "" → urljoin (base_url conn) e = Joined url →
  _get_url urljoin conn (Some e) sent = (Return url, sent).
Proof.
  intros He Hjoin. unfold _get_url. rewrite Hjoin.
  destruct (String.eqb e "") eqn:E; [|reflexivity].
  apply String.eqb_eq in E. contradiction.
Qed.

Lemma get_url_invalid (e msg : string) (sent : list request) :
  e ≠ "" → urljoin (base_url conn) e = Invalid msg →
  _get_url urljoin conn (Some e) sent = (Raise (ValueError msg), sent).
Proof.
  intros He Hjoin. unfold _get_url. rewrite Hjoin.
  destruct (String.eqb e "") eqn:E; [|reflexivity].
  apply String.eqb_eq in E. contradiction.
Qed.

Lemma get_url_empty (endpoint : option string) (sent : list request) :
  endpoint = None ∨ endpoint = Some "" →
  _get_url urljoin conn endpoint sent =
    (Raise (ValueError "endpoint must not be empty"), sent).
Proof. intros [-> | ->]; reflexivity. Qed.


Lemma extend_params_extra params_json extra fetch_size start_at :
  extra_params json_loads params_json extra →
  extend_params json_loads params_json
    (<["maxResults" := VInt fetch_size]> {[ "startAt" := VInt start_at ]}) =
  Return (paginated_params fetch_size extra start_at).
Proof.
  unfold extra_params, extend_params, paginated_params.
  destruct params_json as [txt|].
  - intros ->. reflexivity.
  - intros ->. simpl. by rewrite (left_id_L ∅ (∪)).
Qed.

Lemma read_page_fuel (r : response) : read_page r ≠ OutOfFuel.
Proof.
  unfold read_page, response_json, getitem, iterate, and_then.
  repeat case_match; congruence.
Qed.

Lemma read_issues_fuel (r : response) : read_issues r ≠ OutOfFuel.
Proof.
  unfold read_issues, response_json, getitem, iterate, and_then.
  repeat case_match; congruence.
Qed.



(** The body of the [while has_next] loop, unfolded once. *)
Lemma fetch_paginated_loop_S fuel url fetch_size params_json start_at data sent :
  fetch_paginated_loop json_loads srv conn (S fuel) url fetch_size params_json
                       true start_at data sent =
  match extend_params json_loads params_json
          (<["maxResults" := VInt fetch_size]> {[ "startAt" := VInt start_at ]}) with
  | Return params =>
      let req := get_request conn url params in
      let r := srv sent req in
      if negb (status_code r =? 200)%Z then
        (Raise (JiraApiError ("Failed to fetch paginated values: " +:+ text r)
                             (status_code r)), sent ++ [req])
      else
        match read_page r with
        | Return (has_next, items) =>
            fetch_paginated_loop json_loads srv conn fuel url fetch_size
              params_json has_next (start_at + len items)%Z (data ++ items)
              (sent ++ [req])
        | Raise e => (Raise e, sent ++ [req])
        | OutOfFuel => (OutOfFuel, sent ++ [req])
        end
  | Raise e => (Raise e, sent)
  | OutOfFuel => (OutOfFuel, sent)
  end.
Proof.
  cbn [fetch_paginated_loop]. unfold bind at 1. unfold lift at 1.
  destruct (extend_params _ _ _) as [params| |]; try reflexivity.
  unfold bind at 1. unfold _get_response at 1. cbn [default].
  cbv zeta.
  destruct (negb _); [reflexivity|].
  unfold read_page, bind, lift, and_then.
  destruct (response_json _) as [page_data| |]; try reflexivity.
  destruct (getitem page_data "isLast") as [is_last| |]; try reflexivity.
  destruct (getitem page_data "values") as [v| |]; try reflexivity.
  destruct (iterate v) as [items| |]; reflexivity.
Qed.

Lemma fetch_paginated_loop_done fuel url fetch_size params_json start_at data sent :
  fetch_paginated_loop json_loads srv conn fuel url fetch_size params_json
                       false start_at data sent = (Return data, sent).
Proof. destruct fuel; reflexivity. Qed.

(** The [while start_at < total_items] loop, unfolded once. *)
Lemma fetch_issues_loop_unfold fuel url fetch_size fields jql start_at
    total_items fetched sent :
  fetch_issues_loop srv conn fuel url fetch_size fields jql start_at
                    total_items fetched sent =
  match int_lt start_at total_items with
  | Return true =>
      match fuel with
      | O => (OutOfFuel, sent)
      | S fuel' =>
          let req := get_request conn url
                       (_get_params fetch_size fields jql start_at) in
          let r := srv sent req in
          if negb (status_code r =? 200)%Z then
            (Raise (JiraApiError ("Failed to fetch issues: " +:+ text r)
                                 (status_code r)), sent ++ [req])
          else
            match read_issues r with
            | Return (total_items', items) =>
                fetch_issues_loop srv conn fuel' url fetch_size fields jql
                  (start_at + len items)%Z total_items' (fetched ++ items)
                  (sent ++ [req])
            | Raise e => (Raise e, sent ++ [req])
            | OutOfFuel => (OutOfFuel, sent ++ [req])
            end
      end
  | Return false => (Return fetched, sent)
  | Raise e => (Raise e, sent)
  | OutOfFuel => (OutOfFuel, sent)
  end.
Proof.
  destruct fuel; cbn [fetch_issues_loop]; unfold bind at 1; unfold lift at 1;
    destruct (int_lt start_at total_items) as [[]| |]; try reflexivity.
  unfold bind at 1. unfold _get_response at 1. cbn [default]. cbv zeta.
  destruct (negb _); [reflexivity|].
  unfold read_issues, bind, lift, and_then.
  destruct (response_json _) as [d| |]; try reflexivity.
  destruct (getitem d "total") as [t| |]; try reflexivity.
  destruct (getitem d "issues") as [v| |]; try reflexivity.
  destruct (iterate v) as [items| |]; reflexivity.
Qed.

End Steps.

(** ** Budgets and logs *)

Section Runs.

Variable urljoin : string → string → joined.
Variable json_loads : string → exn + value.
Variable srv : server.
Variable conn : JiraConnection.



(** The two ways a paginated operation starts: its arguments are refused
    before anything is sent, or it enters its loop at offset 0. *)
Lemma fetch_paginated_start endpoint fetch_size params_json :
  (∃ msg, ∀ fuel sent,
      fetch_paginated urljoin json_loads srv conn fuel endpoint fetch_size
        params_json sent = (Raise (ValueError msg), sent)) ∨
  (∃ url, ∀ fuel sent,
      fetch_paginated urljoin json_loads srv conn fuel endpoint fetch_size
        params_json sent =
      fetch_paginated_loop json_loads srv conn fuel url fetch_size params_json
        true 0 [] sent).
Proof.
  unfold fetch_paginated, bind, _get_url, raise, ret.
  destruct endpoint as [e|]; [|left; eauto].
  destruct (String.eqb e ""); [left; eauto|].
  destruct (urljoin (base_url conn) e) as [url|msg]; [|left; eauto].
  destruct (fetch_size <? 1)%Z; [left; eauto|right; eauto].
Qed.

Lemma fetch_issues_start endpoint fetch_size fields_str jql :
  (∃ msg, ∀ fuel sent,
      fetch_issues urljoin srv conn fuel endpoint fetch_size fields_str jql
        sent = (Raise (ValueError msg), sent)) ∨
  (∃ url, ∀ fuel sent,
      fetch_issues urljoin srv conn fuel endpoint fetch_size fields_str jql
        sent =
      fetch_issues_loop srv conn fuel url fetch_size (fields_of fields_str)
        jql 0 (VInt fetch_size) [] sent).
Proof.
  unfold fetch_issues, bind, _get_url, raise, ret.
  destruct endpoint as [e|]; [|left; eauto].
  destruct (String.eqb e ""); [left; eauto|].
  destruct (urljoin (base_url conn) e) as [url|msg]; [|left; eauto].
  destruct (fetch_size <? 1)%Z; [left; eauto|right; eauto].
Qed.

Lemma fetch_paginated_run e url fetch_size params_json fuel sent :
  e ≠ "" → urljoin (base_url conn) e = Joined url → (1 ≤ fetch_size)%Z →
  fetch_paginated urljoin json_loads srv conn fuel (Some e) fetch_size
    params_json sent =
  fetch_paginated_loop json_loads srv conn fuel url fetch_size params_json
    true 0 [] sent.
Proof.
  intros He Hjoin Hfs. unfold fetch_paginated, bind.
  rewrite (get_url_nonempty _ _ e url) by done.
  destruct (fetch_size <? 1)%Z eqn:E; [lia|reflexivity].
Qed.



End Runs.

Section IssueRuns.

Variable urljoin : string → string → joined.
Variable srv : server.
Variable conn : JiraConnection.


Lemma read_issues_issues_of (r : response) total_items items :
  read_issues r = Return (total_items, items) → issues_of r = items.
Proof.
  unfold read_issues, issues_of, response_json, and_then.
  destruct (json r) as [d|]; [|discriminate].
  destruct (getitem d "total"); try discriminate.
  destruct (getitem d "issues") as [v| |]; try discriminate.
  destruct (iterate v); congruence.
Qed.

(** Every request of the loop is built by [_get_params] from the offset in
    force when it was sent. *)
Lemma fetch_issues_loop_requests (fuel : nat) :
  ∀ url fetch_size fields jql start_at total_items fetched sent out log,
    fetch_issues_loop srv conn fuel url fetch_size fields jql start_at
      total_items fetched sent = (out, log) →
    ∃ new, log = sent ++ new ∧
      new = (λ off, get_request conn url
                      (_get_params fetch_size fields jql off))
            <$> issue_offsets srv sent start_at new.
Proof.
  induction fuel as [|fuel IH];
    intros url fetch_size fields jql start_at total_items fetched sent out
           log Hrun;
    rewrite fetch_issues_loop_unfold in Hrun;
    destruct (int_lt start_at total_items) as [[]| |];
    try (simplify_eq; exists []; by rewrite app_nil_r).
  cbv zeta in Hrun.
  set (req := get_request conn url _) in *.
  destruct (negb (status_code (srv sent req) =? 200)%Z);
    [simplify_eq; by exists [req]|].
  destruct (read_issues (srv sent req)) as [[total_items' items]| |] eqn:Erd;
    try (simplify_eq; by exists [req]).
  apply IH in Hrun as (new & -> & Hnew).
  exists (req :: new). split; [by rewrite <- app_assoc|].
  cbn [issue_offsets]. rewrite (read_issues_issues_of _ _ _ Erd), fmap_cons.
  f_equal. exact Hnew.
Qed.

Lemma get_params_lookup fetch_size fields jql start_at :
  let params := _get_params fetch_size fields jql start_at in
  params !! "startAt" = Some (VInt start_at) ∧
  params !! "maxResults" = Some (VInt fetch_size) ∧
  params !! "jql" = VStr <$> jql ∧
  params !! "fields" = (λ fs, VList (VStr <$> fs)) <$> fields.
Proof.
  unfold _get_params. destruct jql, fields; simpl; by simplify_map_eq.
Qed.

End IssueRuns.

(** ** Pages in, concatenation out *)

Section Pages.

Variable urljoin : string → string → joined.
Variable json_loads : string → exn + value.
Variable srv : server.
Variable conn : JiraConnection.

Lemma list_to_map_dict_get (k : string) (entries : list (string * value)) :
  (list_to_map entries : gmap string value) !! k = dict_get k entries.
Proof.
  induction entries as [|[k' v] entries IH]; [done|].
  cbn [list_to_map dict_get foldr fst snd]. cbn [list_to_map] in IH.
  destruct (String.eqb k' k) eqn:E.
  - apply String.eqb_eq in E as ->. by rewrite lookup_insert_eq.
  - apply String.eqb_neq in E. by rewrite lookup_insert_ne.
Qed.



End Pages.

Section IssuePages.

Variable urljoin : string → string → joined.
Variable srv : server.
Variable conn : JiraConnection.



End IssuePages.

(** ** Loops that never end, loops that must *)

Section Termination.

Variable urljoin : string → string → joined.
Variable json_loads : string → exn + value.
Variable srv : server.
Variable conn : JiraConnection.







End Termination.

(** ** Failures of whole operations *)

Section Failures.

Variable urljoin : string → string → joined.
Variable json_loads : string → exn + value.
Variable srv : server.
Variable conn : JiraConnection.

Lemma fetch_array_run (e url : string) :
  e ≠ "" → urljoin (base_url conn) e = Joined url →
  let req := get_request conn url ∅ in
  let r := srv [] req in
  run (fetch_array urljoin srv conn (Some e)) =
    (if negb (status_code r =? 200)%Z then
       Raise (JiraApiError ("Failed to fetch data as array: " +:+ text r)
                           (status_code r))
     else response_json r, [req]).
Proof.
  intros He Hjoin. unfold run, fetch_array, bind.
  rewrite (get_url_nonempty _ _ e url) by done.
  unfold _get_response. simpl. by destruct (negb _).
Qed.

(** [fetch_array] either raises before anything is sent, or sends its one
    request to the resolved URL. *)
Lemma fetch_array_cases (endpoint : option string) :
  (∃ msg, run (fetch_array urljoin srv conn endpoint) =
            (Raise (ValueError msg), [])) ∨
  (∃ e url, endpoint = Some e ∧ e ≠ "" ∧
            urljoin (base_url conn) e = Joined url ∧
            let req := get_request conn url ∅ in
            let r := srv [] req in
            run (fetch_array urljoin srv conn endpoint) =
              (if negb (status_code r =? 200)%Z then
                 Raise (JiraApiError
                          ("Failed to fetch data as array: " +:+ text r)
                          (status_code r))
               else response_json r, [req])).
Proof.
  destruct endpoint as [e|]; [|left; by eexists].
  destruct (String.eqb e "") eqn:E.
  { apply String.eqb_eq in E as ->. left. by eexists. }
  apply String.eqb_neq in E.
  destruct (urljoin (base_url conn) e) as [url|msg] eqn:Hjoin.
  - right. exists e, url. repeat split; try done.
    by apply fetch_array_run.
  - left. exists msg. unfold run, fetch_array, bind.
    by rewrite (get_url_invalid _ _ e msg).
Qed.





End Failures.

(** * Properties of the specification *)

(** C9. When the request of [fetch_array] is answered with status 200 and a
    body that decodes to [D], [fetch_array] returns [D] exactly as the server
    sent it, whatever kind of value [D] is, and that request, which carries
    no query parameter, is the only one. *)
Theorem fetch_array_returns_body
    (urljoin : string → string → joined) (srv : server) (conn : JiraConnection)
    (endpoint : option string) (req : request) (D : value) :
  (run (fetch_array urljoin srv conn endpoint)).2 !! 0 = Some req →
  status_code (srv [] req) = 200%Z →
  json (srv [] req) = Some D →
  run (fetch_array urljoin srv conn endpoint) = (Return D, [req]) ∧
  params req = ∅.
Proof.
  destruct (fetch_array_cases urljoin srv conn endpoint)
    as [[msg H] | (e & url & -> & He & Hjoin & H)]; rewrite H; simpl.
  - discriminate.
  - intros [= <-] Hst HD. rewrite Hst. simpl. unfold response_json.
    by rewrite HD.
Qed.

(** The round trip of C9 on an array and on an object. *)
Lemma fetch_array_returns_body_witness :
  let array := VList [VDict [("id", VInt 1); ("name", VStr "Test")]] in
  let object := VDict [("total", VInt 0); ("ratio", VFloat (Finite 5 (-1)))] in
  (run (fetch_array RefUrl.urljoin (always (ok array)) CONNECTION
          (Some ENDPOINT))).1 = Return array ∧
  (run (fetch_array RefUrl.urljoin (always (ok object)) CONNECTION
          (Some ENDPOINT))).1 = Return object.
Proof.
  intros array object. split.
  - destruct (fetch_array_returns_body RefUrl.urljoin (always (ok array))
                CONNECTION (Some ENDPOINT)
                (get_request CONNECTION
                   "https://your-jira-instance.com/some/endpoint" ∅)
                array) as [Hrun _];
      [reflexivity|reflexivity|reflexivity|].
    by rewrite Hrun.
  - destruct (fetch_array_returns_body RefUrl.urljoin (always (ok object))
                CONNECTION (Some ENDPOINT)
                (get_request CONNECTION
                   "https://your-jira-instance.com/some/endpoint" ∅)
                object) as [Hrun _];
      [reflexivity|reflexivity|reflexivity|].
    by rewrite Hrun.
Defined.



(** C6. An empty or absent endpoint makes the three operations raise a
    [ValueError], and so does a [fetch_size] below 1 for the two paginated
    ones; in each case the log of requests is empty, for any loop budget. *)
Theorem invalid_arguments_fail_unsent
    (urljoin : string → string → joined) (json_loads : string → exn + value)
    (srv : server) (conn : JiraConnection) :
  (∀ endpoint, endpoint = None ∨ endpoint = Some "" →
     run (fetch_array urljoin srv conn endpoint) =
       (Raise (ValueError "endpoint must not be empty"), []) ∧
     (∀ (fuel : nat) fetch_size params_json,
        run (fetch_paginated urljoin json_loads srv conn fuel endpoint
               fetch_size params_json) =
          (Raise (ValueError "endpoint must not be empty"), [])) ∧
     (∀ (fuel : nat) fetch_size fields_str jql,
        run (fetch_issues urljoin srv conn fuel endpoint fetch_size fields_str
               jql) =
          (Raise (ValueError "endpoint must not be empty"), []))) ∧
  (∀ (fuel : nat) endpoint fetch_size, (fetch_size ≤ 0)%Z →
     (∀ params_json, ∃ msg,
        run (fetch_paginated urljoin json_loads srv conn fuel endpoint
               fetch_size params_json) = (Raise (ValueError msg), [])) ∧
     (∀ fields_str jql, ∃ msg,
        run (fetch_issues urljoin srv conn fuel endpoint fetch_size fields_str
               jql) = (Raise (ValueError msg), []))).
Proof.
  split.
  - intros endpoint He. unfold run, fetch_array, fetch_paginated, fetch_issues,
      bind.
    rewrite !get_url_empty by done. done.
  - intros fuel endpoint fetch_size Hfs.
    unfold run, fetch_paginated, fetch_issues, bind, _get_url, raise, ret.
    destruct endpoint as [e|]; [|eauto].
    destruct (String.eqb e ""); [eauto|].
    destruct (urljoin (base_url conn) e) as [url|msg]; [|eauto].
    destruct (fetch_size <? 1)%Z eqn:E; [eauto|lia].
Qed.

(** C6 on the arguments of the test-suite: the empty endpoint, and the fetch
    size -1. *)
Lemma invalid_arguments_fail_unsent_witness :
  let srv := always (ok (VList [])) in
  run (fetch_array RefUrl.urljoin srv CONNECTION (Some "")) =
    (Raise (ValueError "endpoint must not be empty"), []) ∧
  (∃ msg, run (fetch_paginated RefUrl.urljoin RefDecoder.loads srv CONNECTION 3
                 (Some ENDPOINT) (-1) None) = (Raise (ValueError msg), [])) ∧
  (∃ msg, run (fetch_issues RefUrl.urljoin srv CONNECTION 3 (Some ENDPOINT)
                 (-1) None None) = (Raise (ValueError msg), [])).
Proof.
  intros srv.
  destruct (invalid_arguments_fail_unsent RefUrl.urljoin RefDecoder.loads srv
              CONNECTION) as [Hend Hsize].
  split; [|split].
  - apply (Hend (Some "")). right. reflexivity.
  - apply (Hsize 3 (Some ENDPOINT) (-1)%Z). lia.
  - apply (Hsize 3 (Some ENDPOINT) (-1)%Z). lia.
Defined.












(** C8, as the code has it.  Every request of [fetch_issues] carries
    [startAt], the offset in force when it was sent (the number of issues
    received before it), and [maxResults], the fetch size; it carries [jql]
    exactly when a jql argument was given; and it carries [fields] exactly
    when [fields_str] was given and is not the empty string, as the list of
    the pieces of [fields_str] between commas. *)
Theorem fetch_issues_request_params
    (urljoin : string → string → joined) (srv : server) (conn : JiraConnection)
    (fuel : nat) (endpoint : option string) (fetch_size : Z)
    (fields_str jql : option string) (i : nat) (req : request) :
  let reqs := (run (fetch_issues urljoin srv conn fuel endpoint fetch_size
                      fields_str jql)).2 in
  reqs !! i = Some req →
  ∃ off,
    issue_offsets srv [] 0 reqs !! i = Some off ∧
    params req !! "startAt" = Some (VInt off) ∧
    params req !! "maxResults" = Some (VInt fetch_size) ∧
    params req !! "jql" = VStr <$> jql ∧
    params req !! "fields" =
      match fields_str with
      | Some s =>
          if String.eqb s "" then None
          else Some (VList (VStr <$> split_on "," s))
      | None => None
      end.
Proof.
  unfold run.
  destruct (fetch_issues_start urljoin srv conn endpoint fetch_size fields_str
              jql) as [[msg H] | [url H]]; rewrite H; simpl.
  - intros Hk. by rewrite lookup_nil in Hk.
  - destruct (fetch_issues_loop _ _ _ _ _ _ _ _ _ _ _) as [out log] eqn:Hrun.
    apply fetch_issues_loop_requests in Hrun as (new & -> & Hnew). simpl.
    intros Hk. pose proof Hk as Hk'.
    rewrite Hnew, list_lookup_fmap in Hk'.
    destruct (issue_offsets srv [] 0 new !! i) as [off|] eqn:Hoff; [|done].
    simpl in Hk'. simplify_eq. exists off. split; [done|].
    destruct (get_params_lookup fetch_size (fields_of fields_str) jql off)
      as (H1 & H2 & H3 & H4).
    cbn [params get_request]. rewrite H1, H2, H3, H4.
    repeat split. unfold fields_of.
    destruct fields_str as [s|]; [|done]. by destruct (String.eqb s "").
Qed.

(** C8 on the example of the specification: with [fields_str] = [a,b] the
    second request, at offset 1, carries both field names; without
    [fields_str] no [fields] parameter is sent. *)
Lemma fetch_issues_request_params_witness :
  let srv := scripted [ok (issues_page 2 [obj_id 1]); ok (issues_page 2 [obj_id 2])]
                      (failed 404 "no such page") in
  (∃ req,
     (run (fetch_issues RefUrl.urljoin srv CONNECTION 5 (Some ENDPOINT) 1
             (Some "a,b") (Some "project = Foo"))).2 !! 1 = Some req ∧
     params req !! "startAt" = Some (VInt 1) ∧
     params req !! "maxResults" = Some (VInt 1) ∧
     params req !! "jql" = Some (VStr "project = Foo") ∧
     params req !! "fields" = Some (VList [VStr "a"; VStr "b"])) ∧
  (∃ req,
     (run (fetch_issues RefUrl.urljoin srv CONNECTION 5 (Some ENDPOINT) 1
             None None)).2 !! 0 = Some req ∧
     params req !! "fields" = None ∧ params req !! "jql" = None).
Proof.
  intros srv. split.
  - eexists. split; [reflexivity|].
    edestruct (fetch_issues_request_params RefUrl.urljoin srv CONNECTION 5
                 (Some ENDPOINT) 1 (Some "a,b") (Some "project = Foo") 1)
      as (off & Hoff & Hs & Hm & Hj & Hf); [reflexivity|].
    injection Hoff as <-.
    split; [exact Hs|]. split; [exact Hm|]. split; [exact Hj|exact Hf].
  - eexists. split; [reflexivity|].
    edestruct (fetch_issues_request_params RefUrl.urljoin srv CONNECTION 5
                 (Some ENDPOINT) 1 None None 0)
      as (off & Hoff & Hs & Hm & Hj & Hf); [reflexivity|].
    split; [exact Hf|exact Hj].
Defined.

(** C8 as stated fails on the empty [fields_str]: the argument is given, its
    split on commas is the list of one empty name, and yet the request
    carries no [fields] parameter. *)
Lemma fetch_issues_empty_fields_unsent :
  ∃ req,
    (run (fetch_issues RefUrl.urljoin (always (ok (issues_page 0 [])))
            CONNECTION 1 (Some ENDPOINT) 1 (Some "") None)).2 = [req] ∧
    split_on "," "" = [""] ∧
    params req !! "fields" = None ∧
    params req !! "fields" ≠ Some (VList (VStr <$> split_on "," "")).
Proof.
  eexists. split; [reflexivity|]. split; [reflexivity|].
  split; [reflexivity|]. discriminate.
Qed.







(** * Further properties of the fetcher *)

(** ** Whole runs of the two loops *)

Section WholeRuns.

Variable urljoin : string → string → joined.
Variable json_loads : string → exn + value.
Variable srv : server.
Variable conn : JiraConnection.

Lemma read_page_values_of (r : response) has_next items :
  read_page r = Return (has_next, items) → values_of r = items.
Proof. unfold values_of. by intros ->. Qed.

(** Every request of the loop carries the parameters of its offset. *)
Lemma fetch_paginated_loop_requests url fetch_size params_json extra :
  extra_params json_loads params_json extra →
  ∀ (fuel : nat) has_next start_at data sent out log,
    fetch_paginated_loop json_loads srv conn fuel url fetch_size params_json
      has_next start_at data sent = (out, log) →
    ∃ new, log = sent ++ new ∧
      new = (λ off, get_request conn url
                      (paginated_params fetch_size extra off))
            <$> page_offsets srv sent start_at new.
Proof.
  intros Hextra.
  induction fuel as [|fuel IH]; intros [] start_at data sent out log Hrun;
    try (rewrite fetch_paginated_loop_done in Hrun; simplify_eq;
         exists []; by rewrite app_nil_r).
  - simpl in Hrun. unfold out_of_fuel in Hrun. simplify_eq.
    exists []. by rewrite app_nil_r.
  - rewrite fetch_paginated_loop_S, (extend_params_extra _ _ _ _ _ Hextra)
      in Hrun.
    cbv zeta in Hrun.
    set (req := get_request conn url _) in *.
    destruct (negb (status_code (srv sent req) =? 200)%Z);
      [simplify_eq; by exists [req]|].
    destruct (read_page (srv sent req)) as [[has_next items]| |] eqn:Erd;
      try (simplify_eq; by exists [req]).
    apply IH in Hrun as (new & -> & Hnew).
    exists (req :: new). split; [by rewrite <- app_assoc|].
    cbn [page_offsets]. rewrite (read_page_values_of _ _ _ Erd), fmap_cons.
    f_equal. exact Hnew.
Qed.

(** Every request of the loop goes to the loop's URL with the headers and the
    credentials of [_get_response]. *)
Lemma fetch_paginated_loop_envelope (fuel : nat) :
  ∀ url fetch_size params_json has_next start_at data sent out log,
    fetch_paginated_loop json_loads srv conn fuel url fetch_size params_json
      has_next start_at data sent = (out, log) →
    ∃ new, log = sent ++ new ∧
      Forall (λ req, ∃ params, req = get_request conn url params) new.
Proof.
  induction fuel as [|fuel IH];
    intros url fetch_size params_json [] start_at data sent out log Hrun;
    try (rewrite fetch_paginated_loop_done in Hrun; simplify_eq;
         exists []; by rewrite app_nil_r).
  - simpl in Hrun. unfold out_of_fuel in Hrun. simplify_eq.
    exists []. by rewrite app_nil_r.
  - rewrite fetch_paginated_loop_S in Hrun.
    destruct (extend_params _ _ _) as [params| |];
      try (simplify_eq; exists []; by rewrite app_nil_r).
    cbv zeta in Hrun.
    set (req := get_request conn url params) in *.
    assert (Forall (λ req, ∃ params, req = get_request conn url params) [req])
      as Hone by (constructor; [by exists params|constructor]).
    destruct (negb (status_code (srv sent req) =? 200)%Z);
      [simplify_eq; by exists [req]|].
    destruct (read_page (srv sent req)) as [[has_next items]| |];
      try (simplify_eq; by exists [req]).
    apply IH in Hrun as (new & -> & Hnew).
    exists (req :: new). split; [by rewrite <- app_assoc|].
    constructor; [by exists params|done].
Qed.

(** A 200 response that the loop cannot read ends the run with the error of
    the reading. *)
Lemma fetch_paginated_loop_abort (fuel : nat) :
  ∀ url fetch_size params_json has_next start_at data sent out log,
    fetch_paginated_loop json_loads srv conn fuel url fetch_size params_json
      has_next start_at data sent = (out, log) →
    ∃ new, log = sent ++ new ∧
      ∀ (k : nat) req e, new !! k = Some req →
        let r := srv (sent ++ take k new) req in
        status_code r = 200%Z → read_page r = Raise e →
        length new = S k ∧ out = Raise e.
Proof.
  induction fuel as [|fuel IH];
    intros url fetch_size params_json [] start_at data sent out log Hrun;
    try (rewrite fetch_paginated_loop_done in Hrun; simplify_eq;
         exists []; rewrite app_nil_r; split; [done|];
         intros ??? Hk; rewrite lookup_nil in Hk; discriminate).
  - simpl in Hrun. unfold out_of_fuel in Hrun. simplify_eq.
    exists []. rewrite app_nil_r. split; [done|].
    intros ??? Hk. rewrite lookup_nil in Hk. discriminate.
  - rewrite fetch_paginated_loop_S in Hrun.
    destruct (extend_params _ _ _) as [params| |];
      try (simplify_eq; exists []; rewrite app_nil_r; split; [done|];
           intros ??? Hk; rewrite lookup_nil in Hk; discriminate).
    cbv zeta in Hrun.
    set (req := get_request conn url params) in *.
    destruct (negb (status_code (srv sent req) =? 200)%Z) eqn:Est.
    { simplify_eq. exists [req]. split; [done|].
      intros [|k] req' e Hk; [|by rewrite lookup_cons, lookup_nil in Hk].
      simpl in Hk. simplify_eq. simpl. rewrite app_nil_r. intros Hst.
      apply negb_true_iff, Z.eqb_neq in Est. done. }
    destruct (read_page (srv sent req)) as [[has_next items]| |] eqn:Erd.
    + apply IH in Hrun as (new & -> & Hnew).
      exists (req :: new). split; [by rewrite <- app_assoc|].
      intros [|k] req' e Hk; simpl in *.
      * simplify_eq. rewrite app_nil_r. intros _ Hbad. congruence.
      * intros Hst Hbad. rewrite (cons_middle req), app_assoc in Hst, Hbad.
        destruct (Hnew k req' e Hk Hst Hbad) as [Hlen ->]. by rewrite Hlen.
    + simplify_eq. exists [req]. split; [done|].
      intros [|k] req' e' Hk; [|by rewrite lookup_cons, lookup_nil in Hk].
      simpl in Hk. simplify_eq. simpl. rewrite app_nil_r.
      intros _ Hbad. split; [done|]. congruence.
    + by destruct (read_page_fuel (srv sent req)).
Qed.

(** A run that returns has read every response as a page; all pages but the
    last asked for a next one, and the result is made of their values. *)
Lemma fetch_paginated_loop_returns (fuel : nat) :
  ∀ url fetch_size params_json start_at data sent d log,
    fetch_paginated_loop json_loads srv conn fuel url fetch_size params_json
      true start_at data sent = (Return d, log) →
    ∃ new init last,
      log = sent ++ new ∧
      Forall2 read_as_page (answers srv sent new) (init ++ [last]) ∧
      Forall (λ p, p.1 = true) init ∧ last.1 = false ∧
      d = data ++ concat (snd <$> init ++ [last]).
Proof.
  induction fuel as [|fuel IH];
    intros url fetch_size params_json start_at data sent d log Hrun;
    [simpl in Hrun; unfold out_of_fuel in Hrun; discriminate|].
  rewrite fetch_paginated_loop_S in Hrun.
  destruct (extend_params _ _ _) as [params| |]; try discriminate.
  cbv zeta in Hrun.
  set (req := get_request conn url params) in *.
  destruct (negb (status_code (srv sent req) =? 200)%Z) eqn:Est;
    [discriminate|].
  apply negb_false_iff, Z.eqb_eq in Est.
  destruct (read_page (srv sent req)) as [[[] items]| |] eqn:Erd;
    try discriminate.
  - apply IH in Hrun as (new & init & last & -> & Hans & Hinit & Hlast & ->).
    exists (req :: new), ((true, items) :: init), last.
    split; [by rewrite <- app_assoc|].
    split; [by constructor|].
    split; [by constructor|].
    split; [done|]. simpl. by rewrite <- app_assoc.
  - rewrite fetch_paginated_loop_done in Hrun. simplify_eq.
    exists [req], [], (false, items).
    split; [done|]. split; [by repeat constructor|].
    split; [constructor|]. split; [done|]. simpl. by rewrite app_nil_r.
Qed.

End WholeRuns.

Section WholeIssueRuns.

Variable urljoin : string → string → joined.
Variable srv : server.
Variable conn : JiraConnection.

Lemma len_app (l k : list value) : len (l ++ k) = (len l + len k)%Z.
Proof. unfold len. rewrite length_app. lia. Qed.

Lemma fetch_issues_loop_envelope (fuel : nat) :
  ∀ url fetch_size fields jql start_at total_items fetched sent out log,
    fetch_issues_loop srv conn fuel url fetch_size fields jql start_at
      total_items fetched sent = (out, log) →
    ∃ new, log = sent ++ new ∧
      Forall (λ req, ∃ params, req = get_request conn url params) new.
Proof.
  intros url fetch_size fields jql start_at total_items fetched sent out log
         Hrun.
  apply fetch_issues_loop_requests in Hrun as (new & -> & Hnew).
  exists new. split; [done|]. rewrite Hnew. apply Forall_fmap, Forall_forall.
  intros off _. simpl. eauto.
Qed.

(** A 200 response that the loop cannot read, or whose total cannot be
    compared with the offset, ends the run with that error. *)
Lemma fetch_issues_loop_abort (fuel : nat) :
  ∀ url fetch_size fields jql start_at total_items fetched sent out log,
    fetch_issues_loop srv conn fuel url fetch_size fields jql start_at
      total_items fetched sent = (out, log) →
    ∃ new, log = sent ++ new ∧
      ∀ (k : nat) req e, new !! k = Some req →
        let r := srv (sent ++ take k new) req in
        status_code r = 200%Z →
        read_issues r = Raise e ∨
        (∃ total items, read_issues r = Return (total, items) ∧
                        ∀ n, int_lt n total = Raise e) →
        length new = S k ∧ out = Raise e.
Proof.
  induction fuel as [|fuel IH];
    intros url fetch_size fields jql start_at total_items fetched sent out log
           Hrun;
    rewrite fetch_issues_loop_unfold in Hrun;
    destruct (int_lt start_at total_items) as [[]| |];
    try (simplify_eq; exists []; rewrite app_nil_r; split; [done|];
         intros ??? Hk; rewrite lookup_nil in Hk; discriminate).
  cbv zeta in Hrun.
  set (req := get_request conn url _) in *.
  destruct (negb (status_code (srv sent req) =? 200)%Z) eqn:Est.
  { simplify_eq. exists [req]. split; [done|].
    intros [|k] req' e Hk; [|by rewrite lookup_cons, lookup_nil in Hk].
    simpl in Hk. simplify_eq. simpl. rewrite app_nil_r. intros Hst.
    apply negb_true_iff, Z.eqb_neq in Est. done. }
  destruct (read_issues (srv sent req)) as [[total items]| |] eqn:Erd.
  - pose proof Hrun as Hrun'.
    apply IH in Hrun as (new & -> & Hnew).
    exists (req :: new). split; [by rewrite <- app_assoc|].
    intros [|k] req' e Hk; simpl in *.
    + simplify_eq. rewrite app_nil_r. intros _ [Hbad | (t & i & Hrd & Hcmp)];
        [congruence|].
      rewrite Erd in Hrd. simplify_eq.
      rewrite fetch_issues_loop_unfold, Hcmp in Hrun'. simplify_eq.
      assert (new = []) as -> by (by eapply app_inv_head; rewrite app_nil_r).
      done.
    + intros Hst Hbad. rewrite (cons_middle req), app_assoc in Hst, Hbad.
      destruct (Hnew k req' e Hk Hst Hbad) as [Hlen ->]. by rewrite Hlen.
  - simplify_eq. exists [req]. split; [done|].
    intros [|k] req' e' Hk; [|by rewrite lookup_cons, lookup_nil in Hk].
    simpl in Hk. simplify_eq. simpl. rewrite app_nil_r.
    intros _ [Hbad | (t & i & Hrd & _)]; [|congruence].
    split; [done|]. congruence.
  - by destruct (read_issues_fuel (srv sent req)).
Qed.

(** A run that returns has read every response as a page of issues; the
    result is made of their issues, and the offset it reached is not below
    the total read last. *)
Lemma fetch_issues_loop_returns (fuel : nat) :
  ∀ url fetch_size fields jql start_at total_items fetched sent d log,
    fetch_issues_loop srv conn fuel url fetch_size fields jql start_at
      total_items fetched sent = (Return d, log) →
    ∃ new pages,
      log = sent ++ new ∧
      Forall2 read_as_issues (answers srv sent new) pages ∧
      d = fetched ++ concat (snd <$> pages) ∧
      int_lt (start_at + len (concat (snd <$> pages)))
             (default total_items (last (fst <$> pages))) = Return false.
Proof.
  induction fuel as [|fuel IH];
    intros url fetch_size fields jql start_at total_items fetched sent d log
           Hrun;
    rewrite fetch_issues_loop_unfold in Hrun;
    destruct (int_lt start_at total_items) as [[]| |] eqn:Hin;
    try discriminate;
    try (simplify_eq; exists [], []; simpl;
         rewrite !app_nil_r, Z.add_0_r; by repeat split).
  cbv zeta in Hrun.
  set (req := get_request conn url _) in *.
  destruct (negb (status_code (srv sent req) =? 200)%Z) eqn:Est;
    [discriminate|].
  apply negb_false_iff, Z.eqb_eq in Est.
  destruct (read_issues (srv sent req)) as [[total items]| |] eqn:Erd;
    try discriminate.
  apply IH in Hrun as (new & pages & -> & Hans & -> & Hend).
  exists (req :: new), ((total, items) :: pages).
  split; [by rewrite <- app_assoc|].
  split; [by constructor|].
  split; [simpl; by rewrite <- app_assoc|].
  cbn [fmap list_fmap concat fst snd]. rewrite len_app, Z.add_assoc, last_cons.
  destruct (last (fst <$> pages)) as [t|] eqn:Hlast; simpl in *; exact Hend.
Qed.

End WholeIssueRuns.

(** ** The pieces of a comma-separated string *)

Lemma split_on_nonempty (sep : ascii) (s : string) : split_on sep s ≠ [].
Proof.
  induction s as [|c s IH]; simpl; [done|].
  destruct (Ascii.eqb c sep); [done|]. by destruct (split_on sep s).
Qed.

Lemma split_on_concat (sep : ascii) (s : string) :
  String.concat (String sep "") (split_on sep s) = s.
Proof.
  induction s as [|c s IH]; simpl; [done|].
  pose proof (split_on_nonempty sep s) as Hne.
  destruct (Ascii.eqb c sep) eqn:E.
  - apply Ascii.eqb_eq in E as ->.
    destruct (split_on sep s) as [|w ws]; [done|].
    rewrite <- IH. reflexivity.
  - destruct (split_on sep s) as [|w ws]; [done|].
    rewrite <- IH. by destruct ws.
Qed.

Lemma split_on_free (sep : ascii) (s : string) :
  Forall (λ w, ¬ occurs sep w) (split_on sep s).
Proof.
  unfold occurs.
  induction s as [|c s IH]; simpl;
    [constructor; [by intros []|constructor]|].
  destruct (Ascii.eqb c sep) eqn:E.
  - constructor; [by intros []|done].
  - apply Ascii.eqb_neq in E.
    destruct (split_on sep s) as [|w ws];
      [constructor; [simpl; intros [|[]]; done|constructor]|].
    inversion IH as [|?? Hw Hws]; subst. constructor; [|done].
    simpl. by intros [|].
Qed.

(** X9. A [fields_str] that is not empty is cut at its commas: the list of
    fields is not empty, no field contains a comma, and the fields joined by
    commas are [fields_str] again (so empty fields between adjacent commas
    are kept). *)
Theorem fields_are_the_pieces_between_commas (s : string) :
  s ≠ "" →
  ∃ fields,
    fields_of (Some s) = Some fields ∧
    fields ≠ [] ∧
    Forall (λ w, ¬ occurs "," w) fields ∧
    String.concat "," fields = s.
Proof.
  intros Hs. exists (split_on "," s). unfold fields_of.
  destruct (String.eqb s "") eqn:E; [by apply String.eqb_eq in E|].
  split; [done|]. split; [apply split_on_nonempty|].
  split; [apply split_on_free|apply split_on_concat].
Qed.

(** X9 on the field list of the playground, and on one with an empty field. *)
Lemma fields_are_the_pieces_between_commas_witness :
  fields_of (Some "resolution,resolutiondate,updated,parent") =
    Some ["resolution"; "resolutiondate"; "updated"; "parent"] ∧
  ∃ fields, fields_of (Some "a,,b") = Some fields ∧
            String.concat "," fields = "a,,b" ∧ length fields = 3.
Proof.
  split; [reflexivity|].
  destruct (fields_are_the_pieces_between_commas "a,,b")
    as (fields & Hf & _ & _ & Hjoin); [discriminate|].
  exists fields. split; [exact Hf|]. split; [exact Hjoin|].
  injection Hf as <-. reflexivity.
Defined.

(** ** What every request looks like *)

(** X1. Whatever the server does, every request that [fetch_array],
    [fetch_paginated] or [fetch_issues] sends goes to the one URL resolved
    from the (non-empty) endpoint, with the [Content-Type] header of
    [DEFAULT_HEADERS] and the user name and token of the connection. *)
Theorem requests_share_url_headers_and_credentials
    (urljoin : string → string → joined) (json_loads : string → exn + value)
    (srv : server) (conn : JiraConnection) (endpoint : option string)
    (req : request) :
  let sent_by_some_run :=
    req ∈ (run (fetch_array urljoin srv conn endpoint)).2 ∨
    (∃ (fuel : nat) fetch_size params_json,
       req ∈ (run (fetch_paginated urljoin json_loads srv conn fuel endpoint
                     fetch_size params_json)).2) ∨
    (∃ (fuel : nat) fetch_size fields_str jql,
       req ∈ (run (fetch_issues urljoin srv conn fuel endpoint fetch_size
                     fields_str jql)).2) in
  sent_by_some_run →
  ∃ e, endpoint = Some e ∧ e ≠ "" ∧
       urljoin (base_url conn) e = Joined (url req) ∧
       headers req = DEFAULT_HEADERS ∧
       auth req = (username conn, token conn).
Proof.
  intros sent_by_some_run Hsent.
  destruct endpoint as [e|]; [destruct (String.eqb e "") eqn:E|].
  - apply String.eqb_eq in E as ->.
    destruct Hsent as [H | [(fuel & fs & pj & H) | (fuel & fs & f & j & H)]];
      by apply elem_of_nil in H.
  - apply String.eqb_neq in E. exists e. split; [done|]. split; [done|].
    destruct (urljoin (base_url conn) e) as [u|msg] eqn:Hjoin; last first.
    { destruct Hsent as [H | [(fuel & fs & pj & H) | (fuel & fs & f & j & H)]];
        unfold run, fetch_array, fetch_paginated, fetch_issues, bind in H;
        rewrite (get_url_invalid _ _ e msg) in H by done;
        by apply elem_of_nil in H. }
    assert ((∃ params, req = get_request conn u params) →
            Joined u = Joined (url req) ∧ headers req = DEFAULT_HEADERS ∧
            auth req = (username conn, token conn)) as Hshape
      by (by intros [params ->]).
    apply Hshape.
    destruct Hsent as [H | [(fuel & fs & pj & H) | (fuel & fs & f & j & H)]].
    + rewrite (fetch_array_run _ _ _ e u) in H by done.
      apply list_elem_of_singleton in H. eauto.
    + unfold run, fetch_paginated, bind in H.
      rewrite (get_url_nonempty _ _ e u) in H by done.
      destruct (fs <? 1)%Z; [by apply elem_of_nil in H|].
      destruct (fetch_paginated_loop _ _ _ _ _ _ _ _ _ _ _) as [out log] eqn:Hrun.
      apply fetch_paginated_loop_envelope in Hrun as (new & -> & Hnew).
      rewrite Forall_forall in Hnew. by apply Hnew.
    + unfold run, fetch_issues, bind in H.
      rewrite (get_url_nonempty _ _ e u) in H by done.
      destruct (fs <? 1)%Z; [by apply elem_of_nil in H|].
      destruct (fetch_issues_loop _ _ _ _ _ _ _ _ _ _ _) as [out log] eqn:Hrun.
      apply fetch_issues_loop_envelope in Hrun as (new & -> & Hnew).
      rewrite Forall_forall in Hnew. by apply Hnew.
  - destruct Hsent as [H | [(fuel & fs & pj & H) | (fuel & fs & f & j & H)]];
      by apply elem_of_nil in H.
Qed.

(** X1 on the second request of a two-page search. *)
Lemma requests_share_url_headers_and_credentials_witness :
  ∃ req,
    (run (fetch_issues RefUrl.urljoin
            (scripted [ok (issues_page 2 [obj_id 1])]
                      (ok (issues_page 2 [obj_id 2])))
            CONNECTION 5 (Some ENDPOINT) 1 None None)).2 !! 1 = Some req ∧
    url req = "https://your-jira-instance.com/some/endpoint" ∧
    headers req !! "Content-Type" = Some "application/json" ∧
    auth req = ("your-username", "your-token").
Proof.
  eexists. split; [reflexivity|].
  edestruct (requests_share_url_headers_and_credentials RefUrl.urljoin
               RefDecoder.loads
               (scripted [ok (issues_page 2 [obj_id 1])]
                         (ok (issues_page 2 [obj_id 2])))
               CONNECTION (Some ENDPOINT))
    as (e & He & _ & Hurl & Hhd & Hauth).
  - right. right. exists 5, 1%Z, None, None.
    apply list_elem_of_lookup. exists 1. reflexivity.
  - injection He as <-.
    split; [reflexivity|]. split; [by rewrite Hhd|exact Hauth].
Defined.

(** X2. [fetch_array] never sends more than one request.  For a non-empty
    endpoint that [urljoin] resolves it sends exactly one, to the resolved
    URL and with no query parameters, whatever the response: it neither
    retries nor follows pages.  When that response has status 200 and a body
    that does not decode, the decoding error is what it raises. *)
Theorem fetch_array_sends_one_request
    (urljoin : string → string → joined) (srv : server) (conn : JiraConnection) :
  (∀ endpoint,
     length (run (fetch_array urljoin srv conn endpoint)).2 ≤ 1) ∧
  (∀ e url : string,
     e ≠ "" → urljoin (base_url conn) e = Joined url →
     let req := get_request conn url ∅ in
     (run (fetch_array urljoin srv conn (Some e))).2 = [req] ∧
     (status_code (srv [] req) = 200%Z → json (srv [] req) = None →
      (run (fetch_array urljoin srv conn (Some e))).1 =
        Raise ResponseDecodeError)).
Proof.
  split.
  - intros endpoint.
    destruct (fetch_array_cases urljoin srv conn endpoint)
      as [[msg H] | (e & url & -> & He & Hjoin & H)]; rewrite H; simpl; lia.
  - intros e url He Hjoin req. rewrite (fetch_array_run _ _ _ e url) by done.
    fold req. split; [done|]. intros Hst Hj. rewrite Hst. simpl.
    unfold response_json. by rewrite Hj.
Qed.

(** X2 on a 200 response whose body is not JSON. *)
Lemma fetch_array_sends_one_request_witness :
  let r := run (fetch_array RefUrl.urljoin
                  (always {| status_code := 200; text := "<html>";
                             json := None |})
                  CONNECTION (Some ENDPOINT)) in
  length r.2 = 1 ∧ r.1 = Raise ResponseDecodeError.
Proof.
  intros r.
  destruct (proj2 (fetch_array_sends_one_request RefUrl.urljoin
                     (always {| status_code := 200; text := "<html>";
                                json := None |})
                     CONNECTION)
              ENDPOINT "https://your-jira-instance.com/some/endpoint")
    as [Hlog Hout]; [discriminate|reflexivity|].
  split.
  - subst r. by rewrite Hlog.
  - apply Hout; reflexivity.
Defined.

Lemma paginated_params_lookup fetch_size extra start_at (key : string) :
  paginated_params fetch_size extra start_at !! key =
    match dict_get key extra with
    | Some v => Some v
    | None =>
        if String.eqb key "startAt" then Some (VInt start_at)
        else if String.eqb key "maxResults" then Some (VInt fetch_size)
        else None
    end.
Proof.
  unfold paginated_params. rewrite lookup_union, list_to_map_dict_get.
  destruct (dict_get key extra) as [v|]; simpl.
  - by destruct (_ !! key).
  - rewrite (left_id None _).
    destruct (String.eqb key "startAt") eqn:E1.
    { apply String.eqb_eq in E1 as ->. by simplify_map_eq. }
    apply String.eqb_neq in E1.
    destruct (String.eqb key "maxResults") eqn:E2.
    { apply String.eqb_eq in E2 as ->. by simplify_map_eq. }
    apply String.eqb_neq in E2. by simplify_map_eq.
Qed.

(** X3. Let [params_json] be absent or decode to an object.  Whatever the
    server does, each request of [fetch_paginated] carries exactly the keys
    of that object with the caller's values, plus [startAt] and [maxResults]
    where the caller did not bind them: [maxResults] is the fetch size and
    [startAt] the number of values received before the request.  A caller
    who binds [startAt] thus sends the same [startAt] on every request. *)
Theorem fetch_paginated_request_params
    (urljoin : string → string → joined) (json_loads : string → exn + value)
    (srv : server) (conn : JiraConnection)
    (fuel : nat) (endpoint : option string) (fetch_size : Z)
    (params_json : option string) (extra : list (string * value))
    (i : nat) (req : request) :
  extra_params json_loads params_json extra →
  let reqs := (run (fetch_paginated urljoin json_loads srv conn fuel endpoint
                      fetch_size params_json)).2 in
  reqs !! i = Some req →
  ∃ off,
    page_offsets srv [] 0 reqs !! i = Some off ∧
    ∀ key : string,
      params req !! key =
        match dict_get key extra with
        | Some v => Some v
        | None =>
            if String.eqb key "startAt" then Some (VInt off)
            else if String.eqb key "maxResults" then Some (VInt fetch_size)
            else None
        end.
Proof.
  intros Hextra. unfold run.
  destruct (fetch_paginated_start urljoin json_loads srv conn endpoint
              fetch_size params_json) as [[msg H] | [u H]]; rewrite H; simpl.
  - intros Hk. by rewrite lookup_nil in Hk.
  - destruct (fetch_paginated_loop _ _ _ _ _ _ _ _ _ _ _) as [out log] eqn:Hrun.
    apply (fetch_paginated_loop_requests json_loads srv conn _ _ _ _ Hextra)
      in Hrun as (new & -> & Hnew). simpl.
    intros Hk. pose proof Hk as Hk'.
    rewrite Hnew, list_lookup_fmap in Hk'.
    destruct (page_offsets srv [] 0 new !! i) as [off|] eqn:Hoff; [|done].
    simpl in Hk'. simplify_eq. exists off. split; [done|].
    intros key. apply paginated_params_lookup.
Qed.

(** X3 on a caller who binds [startAt] and [foo]: the second request still
    says [startAt] 7 although one value has been received. *)
Lemma fetch_paginated_request_params_witness :
  let srv := scripted [ok (page false [obj_id 1])] (ok (page true [obj_id 2])) in
  let params_json :=
    "{" +:+ quoted "startAt" +:+ ": 7, " +:+ quoted "foo" +:+ ": 2}" in
  ∃ req,
    (run (fetch_paginated RefUrl.urljoin RefDecoder.loads srv CONNECTION 5
            (Some ENDPOINT) 1 (Some params_json))).2 !! 1 = Some req ∧
    page_offsets srv [] 0
      (run (fetch_paginated RefUrl.urljoin RefDecoder.loads srv CONNECTION 5
              (Some ENDPOINT) 1 (Some params_json))).2 !! 1 = Some 1%Z ∧
    params req !! "startAt" = Some (VInt 7) ∧
    params req !! "foo" = Some (VInt 2) ∧
    params req !! "maxResults" = Some (VInt 1) ∧
    params req !! "jql" = None.
Proof.
  intros srv params_json. eexists. split; [reflexivity|].
  edestruct (fetch_paginated_request_params RefUrl.urljoin RefDecoder.loads srv
               CONNECTION 5 (Some ENDPOINT) 1 (Some params_json)
               [("startAt", VInt 7); ("foo", VInt 2)] 1)
    as (off & Hoff & Hkeys); [reflexivity|reflexivity|].
  split; [reflexivity|].
  split; [exact (Hkeys "startAt")|]. split; [exact (Hkeys "foo")|].
  split; [exact (Hkeys "maxResults")|exact (Hkeys "jql")].
Defined.

(** X4. For a non-empty endpoint that [urljoin] resolves and a fetch size of
    at least 1, when [params_json] decodes to something that is not an object
    (a list, a string, a number, [null]), merging it into the parameters
    raises a [TypeError] in the first iteration, before any request. *)
Theorem params_json_not_an_object_fails_unsent
    (urljoin : string → string → joined) (json_loads : string → exn + value)
    (srv : server) (conn : JiraConnection)
    (e url : string) (fetch_size : Z) (txt : string) (v : value) :
  e ≠ "" → urljoin (base_url conn) e = Joined url → (1 ≤ fetch_size)%Z →
  json_loads txt = inr v →
  (∀ entries, v ≠ VDict entries) →
  ∀ fuel : nat, 0 < fuel →
    run (fetch_paginated urljoin json_loads srv conn fuel (Some e) fetch_size
           (Some txt)) = (Raise TypeError, []).
Proof.
  intros He Hjoin Hfs Hv Hno [|fuel] Hfuel; [lia|].
  unfold run. rewrite (fetch_paginated_run _ _ _ _ e url) by done.
  rewrite fetch_paginated_loop_S. unfold extend_params. rewrite Hv.
  destruct v; try done. by destruct (Hno entries).
Qed.

(** X4 on a JSON list. *)
Lemma params_json_not_an_object_fails_unsent_witness :
  run (fetch_paginated RefUrl.urljoin RefDecoder.loads (always (ok (VList [])))
         CONNECTION 3 (Some ENDPOINT) 50 (Some "[1, 2]")) =
    (Raise TypeError, []).
Proof.
  apply (params_json_not_an_object_fails_unsent RefUrl.urljoin RefDecoder.loads
           _ _ ENDPOINT "https://your-jira-instance.com/some/endpoint" _ _
           (VList [VInt 1; VInt 2])).
  - discriminate.
  - reflexivity.
  - lia.
  - reflexivity.
  - discriminate.
  - lia.
Defined.

(** ** What a returned result is made of *)

(** X5. Whatever the server does, when [fetch_paginated] returns, every
    response of the run had status 200 and a readable body; each of them but
    the last asked for a next page ([isLast] not truthy), the last did not;
    and the result is the values of all of them, appended in the order of
    the requests.  So nothing a run received is dropped or reordered, and no
    run returns before a truthy [isLast]. *)
Theorem fetch_paginated_result_is_all_pages
    (urljoin : string → string → joined) (json_loads : string → exn + value)
    (srv : server) (conn : JiraConnection)
    (fuel : nat) (endpoint : option string) (fetch_size : Z)
    (params_json : option string) (data : list value) (reqs : list request) :
  run (fetch_paginated urljoin json_loads srv conn fuel endpoint fetch_size
         params_json) = (Return data, reqs) →
  ∃ init last,
    Forall2 read_as_page (answers srv [] reqs) (init ++ [last]) ∧
    Forall (λ p, p.1 = true) init ∧ last.1 = false ∧
    data = concat (snd <$> init ++ [last]) ∧
    length reqs = S (length init).
Proof.
  unfold run.
  destruct (fetch_paginated_start urljoin json_loads srv conn endpoint
              fetch_size params_json) as [[msg H] | [u H]]; rewrite H;
    [discriminate|].
  intros Hrun.
  apply fetch_paginated_loop_returns
    in Hrun as (new & init & last & -> & Hans & Hinit & Hlast & ->).
  exists init, last. simpl. repeat split; try done.
  apply Forall2_length in Hans. revert Hans.
  assert (∀ sent n, length (answers srv sent n) = length n) as Hlen.
  { intros sent n. revert sent. induction n as [|r n IH]; intros sent; simpl;
      [done|]. by rewrite IH. }
  rewrite Hlen, length_app. simpl. lia.
Qed.

(** X5 on a server whose first page says [isLast] null and whose second says
    [isLast] 1: the first does not end the run, the second does. *)
Lemma fetch_paginated_result_is_all_pages_witness :
  let first := VDict [("isLast", VNone); ("values", VList [obj_id 1])] in
  let second := VDict [("values", VList [obj_id 2]); ("isLast", VInt 1)] in
  let srv := scripted [ok first; ok second] (failed 404 "no such page") in
  ∃ init last,
    Forall2 read_as_page
      (answers srv []
         (run (fetch_paginated RefUrl.urljoin RefDecoder.loads srv CONNECTION 9
                 (Some ENDPOINT) 50 None)).2)
      (init ++ [last]) ∧
    length init = 1 ∧
    concat (snd <$> init ++ [last]) = [obj_id 1; obj_id 2].
Proof.
  intros first second srv.
  destruct (fetch_paginated_result_is_all_pages RefUrl.urljoin RefDecoder.loads
              srv CONNECTION 9 (Some ENDPOINT) 50 None [obj_id 1; obj_id 2]
              (run (fetch_paginated RefUrl.urljoin RefDecoder.loads srv
                      CONNECTION 9 (Some ENDPOINT) 50 None)).2)
    as (init & last & Hans & _ & _ & Hdata & Hlen); [reflexivity|].
  exists init, last. split; [exact Hans|]. split; [|by rewrite <- Hdata].
  simpl in Hlen. lia.
Defined.

(** X6. Whatever the server does, when [fetch_issues] returns, at least one
    request was sent, every response of the run had status 200 and a
    readable body, the result is the issues of all of them, appended in the
    order of the requests, and the number of issues returned is not below
    the total reported by the last response. *)
Theorem fetch_issues_result_is_all_pages
    (urljoin : string → string → joined) (srv : server) (conn : JiraConnection)
    (fuel : nat) (endpoint : option string) (fetch_size : Z)
    (fields_str jql : option string) (data : list value) (reqs : list request) :
  run (fetch_issues urljoin srv conn fuel endpoint fetch_size fields_str jql)
    = (Return data, reqs) →
  ∃ init total issues,
    Forall2 read_as_issues (answers srv [] reqs) (init ++ [(total, issues)]) ∧
    data = concat (snd <$> init ++ [(total, issues)]) ∧
    int_lt (len data) total = Return false ∧
    (∀ t, total = VInt t → (t ≤ len data)%Z).
Proof.
  unfold run, fetch_issues, bind, _get_url, raise, ret.
  destruct endpoint as [e|]; [|discriminate].
  destruct (String.eqb e ""); [discriminate|].
  destruct (urljoin (base_url conn) e) as [url|msg]; [|discriminate].
  destruct (fetch_size <? 1)%Z eqn:Hfs; [discriminate|].
  intros Hrun.
  apply fetch_issues_loop_returns
    in Hrun as (new & pages & -> & Hans & -> & Hend).
  simpl in *.
  destruct (last (fst <$> pages)) as [total|] eqn:Hlast.
  - apply last_Some in Hlast as [totals Htotals].
    destruct (decide (pages = [])) as [-> | Hne];
      [by destruct totals|].
    destruct (proj2 (last_is_Some pages) Hne) as [[t issues] Hp].
    apply last_Some in Hp as [init ->].
    rewrite fmap_app in Htotals. simpl in Htotals.
    apply app_inj_tail in Htotals as [_ <-].
    exists init, t, issues. repeat split; try done.
    intros t' ->. simpl in Hend. injection Hend as Hend.
    apply Z.ltb_ge in Hend. rewrite Z.add_0_l in Hend. exact Hend.
  - apply last_None, fmap_nil_inv in Hlast as ->. simpl in Hend.
    injection Hend as Hend. apply Z.ltb_ge in Hend, Hfs.
    unfold len in Hend. simpl in Hend. lia.
Qed.

(** X6 on a server that reports a total of 2 and sends three issues on its
    first page: one request, three issues returned. *)
Lemma fetch_issues_result_is_all_pages_witness :
  let srv := always (ok (issues_page 2 [obj_id 1; obj_id 2; obj_id 3])) in
  ∃ init total issues,
    Forall2 read_as_issues
      (answers srv []
         (run (fetch_issues RefUrl.urljoin srv CONNECTION 9 (Some ENDPOINT) 50
                 None None)).2)
      (init ++ [(total, issues)]) ∧
    concat (snd <$> init ++ [(total, issues)]) = [obj_id 1; obj_id 2; obj_id 3] ∧
    int_lt 3 total = Return false.
Proof.
  intros srv.
  destruct (fetch_issues_result_is_all_pages RefUrl.urljoin srv CONNECTION 9
              (Some ENDPOINT) 50 None None [obj_id 1; obj_id 2; obj_id 3]
              (run (fetch_issues RefUrl.urljoin srv CONNECTION 9
                      (Some ENDPOINT) 50 None None)).2)
    as (init & total & issues & Hans & Hdata & Hend & _); [reflexivity|].
  exists init, total, issues.
  split; [exact Hans|]. split; [by rewrite <- Hdata|exact Hend].
Defined.

(** ** Bodies the loops cannot read *)

(** What [read_page] raises on the bodies it cannot read: [isLast] is looked
    up first, then [values]. *)
Lemma read_page_errors (r : response) :
  (json r = None → read_page r = Raise ResponseDecodeError) ∧
  (∀ body, json r = Some body → (∀ entries, body ≠ VDict entries) →
     read_page r = Raise TypeError) ∧
  (∀ entries, json r = Some (VDict entries) →
     dict_get "isLast" entries = None →
     read_page r = Raise (KeyError "isLast")) ∧
  (∀ entries is_last, json r = Some (VDict entries) →
     dict_get "isLast" entries = Some is_last →
     dict_get "values" entries = None →
     read_page r = Raise (KeyError "values")) ∧
  (∀ entries is_last vs, json r = Some (VDict entries) →
     dict_get "isLast" entries = Some is_last →
     dict_get "values" entries = Some vs →
     vs = VNone ∨ (∃ b, vs = VBool b) ∨ (∃ n, vs = VInt n) →
     read_page r = Raise TypeError).
Proof.
  unfold read_page, response_json, and_then, getitem.
  repeat split.
  - by intros ->.
  - intros body -> Hno. destruct body; try done. by destruct (Hno entries).
  - by intros entries -> ->.
  - by intros entries is_last -> -> ->.
  - intros entries is_last vs -> -> -> [-> | [[b ->] | [n ->]]]; done.
Qed.

Lemma read_issues_errors (r : response) :
  (json r = None → read_issues r = Raise ResponseDecodeError) ∧
  (∀ body, json r = Some body → (∀ entries, body ≠ VDict entries) →
     read_issues r = Raise TypeError) ∧
  (∀ entries, json r = Some (VDict entries) →
     dict_get "total" entries = None →
     read_issues r = Raise (KeyError "total")) ∧
  (∀ entries total, json r = Some (VDict entries) →
     dict_get "total" entries = Some total →
     dict_get "issues" entries = None →
     read_issues r = Raise (KeyError "issues")).
Proof.
  unfold read_issues, response_json, and_then, getitem.
  repeat split.
  - by intros ->.
  - intros body -> Hno. destruct body; try done. by destruct (Hno entries).
  - by intros entries -> ->.
  - by intros entries total -> -> ->.
Qed.

(** X7. In a run of [fetch_paginated], a response with status 200 whose body
    cannot be read as a page ends the run right after its request, with the
    error of the first thing that fails: the decoding error of the body, a
    [TypeError] for a body that is not an object, [KeyError isLast] when
    that key is missing (whether or not [values] is there), [KeyError
    values] when only that one is missing, a [TypeError] when [values] is
    null, a boolean or a number.  The values of the earlier pages are not
    returned. *)
Theorem fetch_paginated_unreadable_page_aborts
    (urljoin : string → string → joined) (json_loads : string → exn + value)
    (srv : server) (conn : JiraConnection)
    (fuel : nat) (endpoint : option string) (fetch_size : Z)
    (params_json : option string) (out : outcome (list value))
    (reqs : list request) (k : nat) (req : request) :
  run (fetch_paginated urljoin json_loads srv conn fuel endpoint fetch_size
         params_json) = (out, reqs) →
  reqs !! k = Some req →
  let r := srv (take k reqs) req in
  status_code r = 200%Z →
  (∀ e, read_page r = Raise e → length reqs = S k ∧ out = Raise e) ∧
  (json r = None → out = Raise ResponseDecodeError) ∧
  (∀ body, json r = Some body → (∀ entries, body ≠ VDict entries) →
     out = Raise TypeError) ∧
  (∀ entries, json r = Some (VDict entries) →
     dict_get "isLast" entries = None → out = Raise (KeyError "isLast")) ∧
  (∀ entries is_last, json r = Some (VDict entries) →
     dict_get "isLast" entries = Some is_last →
     dict_get "values" entries = None → out = Raise (KeyError "values")) ∧
  (∀ entries is_last vs, json r = Some (VDict entries) →
     dict_get "isLast" entries = Some is_last →
     dict_get "values" entries = Some vs →
     vs = VNone ∨ (∃ b, vs = VBool b) ∨ (∃ n, vs = VInt n) →
     out = Raise TypeError).
Proof.
  unfold run. intros Hrun Hk Hst.
  set (r := srv (take k reqs) req) in *.
  assert (∀ e, read_page r = Raise e → length reqs = S k ∧ out = Raise e)
    as Habort.
  { destruct (fetch_paginated_start urljoin json_loads srv conn endpoint
                fetch_size params_json) as [[msg H] | [u H]];
      rewrite H in Hrun.
    - by simplify_eq.
    - apply fetch_paginated_loop_abort in Hrun as (new & -> & Hnew).
      intros e. exact (Hnew k req e Hk Hst). }
  destruct (read_page_errors r) as (H1 & H2 & H3 & H4 & H5).
  split; [exact Habort|].
  split; [intros Hj; by apply Habort, H1|].
  split; [intros body Hj Hno; by apply Habort, (H2 body)|].
  split; [intros entries Hj Hl; by apply Habort, (H3 entries)|].
  split; [intros entries is_last Hj Hl Hv;
          by apply Habort, (H4 entries is_last)|].
  intros entries is_last vs Hj Hl Hv Hbad.
  by apply Habort, (H5 entries is_last vs).
Qed.

(** X7 on a second page without [isLast]: two requests, and the first page
    is lost with the run. *)
Lemma fetch_paginated_unreadable_page_aborts_witness :
  let srv := scripted [ok (page false [obj_id 1])]
                      (ok (VDict [("values", VList [obj_id 2])])) in
  let r := run (fetch_paginated RefUrl.urljoin RefDecoder.loads srv CONNECTION 9
                  (Some ENDPOINT) 1 None) in
  length r.2 = 2 ∧ r.1 = Raise (KeyError "isLast").
Proof.
  intros srv r.
  edestruct (fetch_paginated_unreadable_page_aborts RefUrl.urljoin
               RefDecoder.loads srv CONNECTION 9 (Some ENDPOINT) 1 None
               r.1 r.2 1)
    as (Habort & _ & _ & Hkey & _); [reflexivity|reflexivity|reflexivity|].
  split.
  - by destruct (Habort (KeyError "isLast") eq_refl).
  - exact (Hkey [("values", VList [obj_id 2])] eq_refl eq_refl).
Defined.

(** X8. In a run of [fetch_issues], a response with status 200 whose body
    cannot be read ends the run right after its request: with the decoding
    error of the body, a [TypeError] for a body that is not an object,
    [KeyError total] when that key is missing, [KeyError issues] when only
    that one is missing.  A total that is not a number (a string, null, a
    list, an object: neither an integer, nor a boolean, nor a float) is
    accepted with its issues and raises a [TypeError] as soon as the offset
    is compared with it, before any further request. *)
Theorem fetch_issues_unreadable_page_aborts
    (urljoin : string → string → joined) (srv : server) (conn : JiraConnection)
    (fuel : nat) (endpoint : option string) (fetch_size : Z)
    (fields_str jql : option string) (out : outcome (list value))
    (reqs : list request) (k : nat) (req : request) :
  run (fetch_issues urljoin srv conn fuel endpoint fetch_size fields_str jql)
    = (out, reqs) →
  reqs !! k = Some req →
  let r := srv (take k reqs) req in
  status_code r = 200%Z →
  (∀ e, read_issues r = Raise e → length reqs = S k ∧ out = Raise e) ∧
  (json r = None → out = Raise ResponseDecodeError) ∧
  (∀ body, json r = Some body → (∀ entries, body ≠ VDict entries) →
     out = Raise TypeError) ∧
  (∀ entries, json r = Some (VDict entries) →
     dict_get "total" entries = None → out = Raise (KeyError "total")) ∧
  (∀ entries total, json r = Some (VDict entries) →
     dict_get "total" entries = Some total →
     dict_get "issues" entries = None → out = Raise (KeyError "issues")) ∧
  (∀ total items, read_issues r = Return (total, items) →
     (∀ n b x, total ≠ VInt n ∧ total ≠ VBool b ∧ total ≠ VFloat x) →
     length reqs = S k ∧ out = Raise TypeError).
Proof.
  unfold run. intros Hrun Hk Hst.
  set (r := srv (take k reqs) req) in *.
  assert (∀ e, read_issues r = Raise e ∨
               (∃ total items, read_issues r = Return (total, items) ∧
                               ∀ n, int_lt n total = Raise e) →
               length reqs = S k ∧ out = Raise e) as Habort.
  { destruct (fetch_issues_start urljoin srv conn endpoint fetch_size
                fields_str jql) as [[msg H] | [u H]]; rewrite H in Hrun.
    - by simplify_eq.
    - apply fetch_issues_loop_abort in Hrun as (new & -> & Hnew).
      intros e. exact (Hnew k req e Hk Hst). }
  destruct (read_issues_errors r) as (H1 & H2 & H3 & H4).
  split; [intros e He; apply Habort; by left|].
  split; [intros Hj; apply Habort; left; by apply H1|].
  split; [intros body Hj Hno; apply Habort; left; by apply (H2 body)|].
  split; [intros entries Hj Ht; apply Habort; left; by apply (H3 entries)|].
  split; [intros entries total Hj Ht Hi; apply Habort; left;
          by apply (H4 entries total)|].
  intros total items Hrd Hnum. apply Habort. right.
  exists total, items. split; [done|].
  intros n. destruct total as [|b|m|x| | |]; try done.
  - by destruct (Hnum 0%Z b NaN) as (_ & ? & _).
  - by destruct (Hnum m true NaN) as (? & _).
  - by destruct (Hnum 0%Z true x) as (_ & _ & ?).
Qed.

(** X8 on a server that reports its total as the string [2]: the first page
    is read, and the comparison of the offset with the total fails. *)
Lemma fetch_issues_unreadable_page_aborts_witness :
  let body := VDict [("total", VStr "2"); ("issues", VList [obj_id 1])] in
  let r := run (fetch_issues RefUrl.urljoin (always (ok body)) CONNECTION 9
                  (Some ENDPOINT) 1 None None) in
  length r.2 = 1 ∧ r.1 = Raise TypeError.
Proof.
  intros body r.
  edestruct (fetch_issues_unreadable_page_aborts RefUrl.urljoin
               (always (ok body)) CONNECTION 9 (Some ENDPOINT) 1 None None
               r.1 r.2 0)
    as (_ & _ & _ & _ & _ & Hcmp); [reflexivity|reflexivity|reflexivity|].
  apply (Hcmp (VStr "2") [obj_id 1]); [reflexivity|]. by intros n b x.
Defined.

(** ** Keys and checks *)

Lemma get_params_keys fetch_size fields jql start_at (key : string) :
  is_Some (_get_params fetch_size fields jql start_at !! key) ↔
  key = "startAt" ∨ key = "maxResults" ∨
  (key = "jql" ∧ is_Some jql) ∨ (key = "fields" ∧ is_Some fields).
Proof.
  unfold _get_params.
  destruct jql as [q|], fields as [fs|]; simpl;
    rewrite ?lookup_insert_is_Some', lookup_singleton_is_Some;
    split; intros H; destruct_or?; destruct_and?; subst; eauto;
    try (by (destruct H as [? []] || destruct H2 as []));
    naive_solver.
Qed.

(** X10. A request of [fetch_issues] never carries a query parameter other
    than [startAt], [maxResults], [jql] and [fields]; the first two are always
    there, [jql] when a jql argument was given, [fields] when [fields_str] was
    given and is not empty. *)
Theorem fetch_issues_sends_no_other_key
    (urljoin : string → string → joined) (srv : server) (conn : JiraConnection)
    (fuel : nat) (endpoint : option string) (fetch_size : Z)
    (fields_str jql : option string) (req : request) (key : string) :
  req ∈ (run (fetch_issues urljoin srv conn fuel endpoint fetch_size fields_str
                jql)).2 →
  is_Some (params req !! key) ↔
  key = "startAt" ∨ key = "maxResults" ∨
  (key = "jql" ∧ is_Some jql) ∨
  (key = "fields" ∧ ∃ s, fields_str = Some s ∧ s ≠ "").
Proof.
  unfold run.
  destruct (fetch_issues_start urljoin srv conn endpoint fetch_size fields_str
              jql) as [[msg H] | [u H]]; rewrite H; simpl.
  - intros Hin. by apply elem_of_nil in Hin.
  - destruct (fetch_issues_loop _ _ _ _ _ _ _ _ _ _ _) as [out log] eqn:Hrun.
    apply fetch_issues_loop_requests in Hrun as (new & -> & Hnew). simpl.
    rewrite Hnew. intros (off & -> & _)%list_elem_of_fmap. simpl.
    rewrite get_params_keys.
    assert (is_Some (fields_of fields_str) ↔
            ∃ s, fields_str = Some s ∧ s ≠ "") as ->; [|done].
    unfold fields_of. destruct fields_str as [s|].
    + destruct (String.eqb s "") eqn:E.
      * apply String.eqb_eq in E as ->. split; [by intros []|].
        by intros (? & [= <-] & ?).
      * apply String.eqb_neq in E. split; [eauto|]. by eexists.
    + split; [by intros []|]. by intros (? & ? & ?).
Qed.

(** X10 on a search with a jql and no fields. *)
Lemma fetch_issues_sends_no_other_key_witness :
  ∃ req,
    (run (fetch_issues RefUrl.urljoin (always (ok (issues_page 0 [])))
            CONNECTION 5 (Some ENDPOINT) 10 None (Some "project = Foo"))).2
      = [req] ∧
    is_Some (params req !! "jql") ∧
    ¬ is_Some (params req !! "fields") ∧
    ¬ is_Some (params req !! "expand").
Proof.
  eexists. split; [reflexivity|].
  pose proof (λ key,
    fetch_issues_sends_no_other_key RefUrl.urljoin
      (always (ok (issues_page 0 []))) CONNECTION 5 (Some ENDPOINT) 10 None
      (Some "project = Foo") _ key
      (proj2 (list_elem_of_singleton _ _) eq_refl)) as Hkeys.
  split; [|split].
  - apply Hkeys. right. right. left. split; [reflexivity|by eexists].
  - intros H%Hkeys.
    destruct H as [H | [H | [[H _] | [_ (s & Hs & _)]]]]; discriminate.
  - intros H%Hkeys.
    destruct H as [H | [H | [[H _] | [H _]]]]; discriminate.
Defined.

(** X11. For a non-empty endpoint that [urljoin] resolves, a fetch size below
    1 is refused with the message of the check itself, before [params_json]
    is looked at and before any request: a malformed [params_json] does not
    change the error. *)
Theorem fetch_size_checked_before_params_json
    (urljoin : string → string → joined) (json_loads : string → exn + value)
    (srv : server) (conn : JiraConnection) (e url : string) (fetch_size : Z) :
  e ≠ "" → urljoin (base_url conn) e = Joined url → (fetch_size < 1)%Z →
  ∀ fuel : nat,
    (∀ params_json,
       run (fetch_paginated urljoin json_loads srv conn fuel (Some e)
              fetch_size params_json) =
         (Raise (ValueError "fetch_size must be >= 1"), [])) ∧
    (∀ fields_str jql,
       run (fetch_issues urljoin srv conn fuel (Some e) fetch_size fields_str
              jql) = (Raise (ValueError "fetch_size must be >= 1"), [])).
Proof.
  intros He Hjoin Hfs fuel.
  split; intros; unfold run, fetch_paginated, fetch_issues, bind;
    rewrite (get_url_nonempty _ _ e url) by done;
    (destruct (fetch_size <? 1)%Z eqn:E; [done|lia]).
Qed.

(** X11 on a fetch size of 0 with a [params_json] that does not decode. *)
Lemma fetch_size_checked_before_params_json_witness :
  RefDecoder.loads "{" =
    inl (JSONDecodeError "Expecting property name enclosed in double quotes"
           "{" 1) ∧
  run (fetch_paginated RefUrl.urljoin RefDecoder.loads (always (ok (VList [])))
         CONNECTION 4 (Some ENDPOINT) 0 (Some "{")) =
    (Raise (ValueError "fetch_size must be >= 1"), []).
Proof.
  split; [reflexivity|].
  apply (fetch_size_checked_before_params_json RefUrl.urljoin RefDecoder.loads
           (always (ok (VList []))) CONNECTION ENDPOINT
           "https://your-jira-instance.com/some/endpoint" 0).
  - discriminate.
  - reflexivity.
  - lia.
Defined.

(** X12. The URL is resolved before anything else is looked at: for a
    non-empty endpoint on which [urljoin] raises, each of the three
    operations raises that [ValueError] and sends no request, whatever the
    fetch size, the extra parameters and the server. *)
Theorem unresolved_url_fails_unsent
    (urljoin : string → string → joined) (json_loads : string → exn + value)
    (srv : server) (conn : JiraConnection) (e msg : string) :
  e ≠ "" → urljoin (base_url conn) e = Invalid msg →
  run (fetch_array urljoin srv conn (Some e)) = (Raise (ValueError msg), []) ∧
  (∀ (fuel : nat) fetch_size params_json,
     run (fetch_paginated urljoin json_loads srv conn fuel (Some e) fetch_size
            params_json) = (Raise (ValueError msg), [])) ∧
  (∀ (fuel : nat) fetch_size fields_str jql,
     run (fetch_issues urljoin srv conn fuel (Some e) fetch_size fields_str
            jql) = (Raise (ValueError msg), [])).
Proof.
  intros He Hjoin.
  split; [|split]; intros;
    unfold run, fetch_array, fetch_paginated, fetch_issues, bind;
    by rewrite (get_url_invalid _ _ e msg).
Qed.

(** X12 on an endpoint whose authority opens a bracket and does not close
    it, with a fetch size and a [params_json] that would be refused too. *)
Lemma unresolved_url_fails_unsent_witness :
  run (fetch_array RefUrl.urljoin (always (ok (VList []))) CONNECTION
         (Some "//[")) = (Raise (ValueError "Invalid IPv6 URL"), []) ∧
  run (fetch_paginated RefUrl.urljoin RefDecoder.loads (always (ok (VList [])))
         CONNECTION 4 (Some "//[") (-1) (Some "{")) =
    (Raise (ValueError "Invalid IPv6 URL"), []).
Proof.
  destruct (unresolved_url_fails_unsent RefUrl.urljoin RefDecoder.loads
              (always (ok (VList []))) CONNECTION "//[" "Invalid IPv6 URL")
    as (Harray & Hpaginated & _).
  - discriminate.
  - reflexivity.
  - split; [exact Harray|]. apply Hpaginated.
Defined.

(** * The cases of the test-suite *)

(** [test_fetch_paginated]: two pages, with the extra parameter [foo] sent
    along with the offset and the page size on both requests. *)
Example test_fetch_paginated :
  let r := run (fetch_paginated RefUrl.urljoin RefDecoder.loads
                  (scripted [ok (page false [obj_id 1]); ok (page true [obj_id 2])]
                            (failed 404 "no such page"))
                  CONNECTION 10 (Some ENDPOINT) 1
                  (Some ("{" +:+ quoted "foo" +:+ ": 2}"))) in
  r.1 = Return [obj_id 1; obj_id 2] ∧
  (λ req, (url req, params req !! "startAt", params req !! "maxResults",
           params req !! "foo")) <$> r.2 =
  [("https://your-jira-instance.com/some/endpoint",
    Some (VInt 0), Some (VInt 1), Some (VInt 2));
   ("https://your-jira-instance.com/some/endpoint",
    Some (VInt 1), Some (VInt 1), Some (VInt 2))].
Proof. split; reflexivity. Qed.

(** [test_fetch_issues_success_no_fields]: a first page reporting no issues
    ends the run after its one request. *)
Example test_fetch_issues_success_no_fields :
  let r := run (fetch_issues RefUrl.urljoin (always (ok (issues_page 0 [])))
                  CONNECTION 10 (Some ENDPOINT) 1 None
                  (Some "project = Foo and created >= -5d")) in
  r.1 = Return [] ∧ length r.2 = 1.
Proof. split; reflexivity. Qed.

(** [test_fetch_issues_error] and [test_fetch_paginated_error]: a 500 on the
    first request, with the default fetch size. *)
Example test_fetch_errors :
  run (fetch_issues RefUrl.urljoin (always (failed 500 "down")) CONNECTION 10
         (Some ENDPOINT) 50 None None) =
    (Raise (JiraApiError "Failed to fetch issues: down" 500),
     [get_request CONNECTION "https://your-jira-instance.com/some/endpoint"
        (_get_params 50 None None 0)]) ∧
  (run (fetch_paginated RefUrl.urljoin RefDecoder.loads
          (always (failed 500 "down")) CONNECTION 10 (Some ENDPOINT) 50 None)).1 =
    Raise (JiraApiError "Failed to fetch paginated values: down" 500).
Proof. split; reflexivity. Qed.

(** [str.split] on the separators of a field list. *)
Example split_on_commas :
  split_on "," "a,b" = ["a"; "b"] ∧ split_on "," "a,,b," = ["a"; ""; "b"; ""] ∧
  split_on "," "" = [""].
Proof. repeat split. Qed.
